(** * odfdo/note.py: notes, annotations and the office-name allocator

    A shallow embedding of [odfdo/note.py] (footnotes / endnotes, range
    annotations and their end markers, and the generator of unique
    [office:name] values), together with the properties its
    specification states about it. *)

From Stdlib Require Import Ascii.
From stdpp Require Import base decidable option list numbers strings pretty gmap.

Local Open Scope Z_scope.

(** ** Python-side values *)

(** The double quote character, used inside error messages. *)
Definition dquote : string := String "034"%char EmptyString.

(** The exceptions the module raises. [AttributeError] is what Python
    raises when a method is called on the [None] that a failed
    [get_element] returned. *)
Inductive exn : Type :=
| ValueError (msg : string)
| TypeError (msg : string)
| AttributeError (msg : string).

(** Outcome of a call: a returned value, a raised exception, or a loop
    that was still running when the step budget ran out. *)
Inductive outcome (A : Type) : Type :=
| Return (a : A)
| Raise (e : exn)
| OutOfFuel.
Arguments Return {A} a.
Arguments Raise {A} e.
Arguments OutOfFuel {A}.

#[global] Instance outcome_ret : MRet outcome := λ A a, Return a.

#[global] Instance outcome_bind : MBind outcome := λ A B k m,
  match m with
  | Return a => k a
  | Raise e => Raise e
  | OutOfFuel => OutOfFuel
  end.

Definition raises {A : Type} (m : outcome A) : Prop :=
  ∃ e, m = Raise e.

(** A [datetime] is kept as its ISO-8601 text. *)
Definition datetime : Type := string.

(** Python truthiness of a [str] and of an optional [str]
    ([None] and the empty string are falsy). *)
Definition str_truthy (s : string) : bool :=
  if decide (s = "") then false else true.

Definition opt_truthy (o : option string) : bool :=
  match o with
  | Some s => str_truthy s
  | None => false
  end.

(** ** The office-name allocator: [get_unique_office_name], lines 45-52 *)

(** ['__Fieldmark__lpod_%s' % i] *)
Definition fieldmark_name (i : Z) : string :=
  "__Fieldmark__lpod_" +:+ pretty i.

(** The [while True] loop: one unit of [fuel] per iteration. *)
Fixpoint office_name_loop (fuel : nat) (i : Z) (used : list string)
  : option string :=
  match fuel with
  | O => None
  | S fuel' =>
      let name := fieldmark_name i in
      if bool_decide (name ∈ used)
      then office_name_loop fuel' (i + 1) used
      else Some name
  end.

(** The names the loop tries in [n] iterations from the counter [i]. *)
Definition candidates (i : Z) (n : nat) : list string :=
  fieldmark_name <$> seqZ i (Z.of_nat n).

(** ** The element tree

    [odfdo/element.py] is the collaborator that [note.py] builds on; the
    definitions of this part stand for it. *)

(** Modelled from the spec: the [Element] class of element.py, the tree
    model.  The tree is a DOM-like term: an element carries the identity
    of the Python object ([uid]), its tag, its attributes and its child
    nodes in document order; a child node is a piece of text or an
    element. *)
#[local] Unset Elimination Schemes.
Inductive Element : Type :=
| Elem (uid : nat) (tag : string) (attrs : gmap string string)
       (kids : list Node)
with Node : Type :=
| T (s : string)
| E (e : Element).
#[local] Set Elimination Schemes.

(** A Python value that reaches one of the setters or is handed back by
    [get_annotated]. *)
Inductive pyval : Type :=
| PNone
| PStr (s : string)
| PBytes (b : string)
| PInt (n : Z)
| PElement (e : Element)
| PElements (l : list Element).

(** [type(v)] as ['%s'] prints it. *)
Definition type_repr (v : pyval) : string :=
  match v with
  | PNone => "<class 'NoneType'>"
  | PStr _ => "<class 'str'>"
  | PBytes _ => "<class 'bytes'>"
  | PInt _ => "<class 'int'>"
  | PElement _ => "<class 'odfdo.element.Element'>"
  | PElements _ => "<class 'list'>"
  end.

Definition uid_of (e : Element) : nat := let 'Elem u _ _ _ := e in u.
Definition tag_of (e : Element) : string := let 'Elem _ t _ _ := e in t.
Definition attrs_of (e : Element) : gmap string string :=
  let 'Elem _ _ a _ := e in a.
Definition kids_of (e : Element) : list Node := let 'Elem _ _ _ ks := e in ks.

Definition has_uid (u : nat) (e : Element) : bool := bool_decide (uid_of e = u).
Definition has_tag (t : string) (e : Element) : bool := bool_decide (tag_of e = t).

(** The child elements among the child nodes. *)
Definition child_elems (l : list Node) : list Element :=
  omap (λ n, match n with E c => Some c | T _ => None end) l.

(** Modelled from the spec: [Element.from_tag] of element.py, the node
    creation primitive; the new element has no attribute and no child. *)
Definition from_tag (u : nat) (t : string) : Element := Elem u t ∅ [].

(** Modelled from the spec: [Element.get_attribute] of element.py,
    attribute access; an absent attribute reads as [None]. *)
Definition get_attribute (e : Element) (k : string) : option string :=
  attrs_of e !! k.

(** Modelled from the spec: [Element.set_attribute] of element.py,
    attribute access; assigning [None] removes the attribute. *)
Definition set_attribute (e : Element) (k : string) (v : option string)
  : Element :=
  let 'Elem u t a ks := e in
  Elem u t (match v with Some s => <[k:=s]> a | None => delete k a end) ks.

(** Modelled from the spec: [Element.insert] of element.py,
    [insert(node, position)]. *)
Definition insert_child (e child : Element) (position : nat) : Element :=
  let 'Elem u t a ks := e in
  Elem u t a (take position ks ++ E child :: drop position ks).

(** Modelled from the spec: [Element.append] of element.py. *)
Definition append_child (e child : Element) : Element :=
  let 'Elem u t a ks := e in Elem u t a (ks ++ [E child]).

(** Modelled from the spec: [Element.clear] of element.py; the element
    keeps its identity and loses its content. *)
Definition clear (e : Element) : Element :=
  let 'Elem u t a _ := e in Elem u t a [].

(** Modelled from the spec: [Element.get_element] of element.py,
    single-child lookup by tag within a node.  The position of the child
    comes with it, so that an assignment through the returned reference
    lands on that same child. *)
Fixpoint find_child (t : string) (i : nat) (l : list Node)
  : option (nat * Element) :=
  match l with
  | [] => None
  | E c :: l' => if has_tag t c then Some (i, c) else find_child t (S i) l'
  | T _ :: l' => find_child t (S i) l'
  end.

Definition get_element (t : string) (e : Element) : option (nat * Element) :=
  find_child t 0 (kids_of e).

(** Assignment through a reference that [get_element] returned: the child
    at position [i] becomes [f] of itself, inside its parent. *)
Definition on_node (f : Element → Element) (n : Node) : Node :=
  match n with
  | E c => E (f c)
  | T s => T s
  end.

Definition with_child (i : nat) (f : Element → Element) (e : Element)
  : Element :=
  let 'Elem u t a ks := e in Elem u t a (alter (on_node f) i ks).

(** Modelled from the spec: the [text] property of element.py, scalar
    text access: the text at the head of the element. *)
Definition get_text (e : Element) : string :=
  match kids_of e with
  | T s :: _ => s
  | _ => ""
  end.

(** Modelled from the spec: assignment to the [text] property of
    element.py; it replaces the text at the head of the element. *)
Definition set_text (e : Element) (s : string) : Element :=
  match e with
  | Elem u t a (T _ :: ks) => Elem u t a (T s :: ks)
  | Elem u t a ks => Elem u t a (T s :: ks)
  end.

(** Modelled from the spec: the [text_content] property of element.py;
    reading returns the full extracted text of the region. *)
Fixpoint text_content (e : Element) : string :=
  let 'Elem _ _ _ ks := e in
  (fix concat (l : list Node) : string :=
     match l with
     | [] => ""
     | T s :: l' => s +:+ concat l'
     | E c :: l' => text_content c +:+ concat l'
     end) ks.

(** Modelled from the spec: assignment to the [text_content] property of
    element.py; plain text replaces all of the region's content. *)
Definition set_text_content (e : Element) (s : string) : Element :=
  let 'Elem u t a _ := e in Elem u t a [T s].

(** Modelled from the spec: the [dc_creator] property of element.py; the
    creator is kept with the attributes of the annotation, as the spec's
    data model lists it. *)
Definition dc_creator (e : Element) : option string :=
  get_attribute e "dc:creator".

Definition set_dc_creator (e : Element) (c : string) : Element :=
  set_attribute e "dc:creator" (Some c).

(** Modelled from the spec: the [dc_date] property of element.py; the
    date is kept with the attributes of the annotation.  A [datetime]
    object is always truthy, so an unset date is the only falsy one. *)
Definition dc_date (e : Element) : option datetime :=
  get_attribute e "dc:date".

Definition set_dc_date (e : Element) (d : datetime) : Element :=
  set_attribute e "dc:date" (Some d).

(** The elements of a tree in document order, the tree's own root first. *)
Fixpoint elements (e : Element) : list Element :=
  let 'Elem _ _ _ ks := e in
  e :: (ks ≫= λ n, match n with E c => elements c | T _ => [] end).

Definition descendants (e : Element) : list Element :=
  child_elems (kids_of e) ≫= elements.

Definition uids (e : Element) : list nat := uid_of <$> elements e.

(** Every Python object is one node: identities do not repeat. *)
Definition wf (e : Element) : Prop := NoDup (uids e).

(** The proper ancestors of the node [u], nearest first; [None] when [u]
    is not in the tree. *)
Fixpoint ancestors (u : nat) (e : Element) : option (list Element) :=
  let 'Elem v _ _ ks := e in
  if bool_decide (v = u) then Some []
  else
    (fix among (l : list Node) : option (list Element) :=
       match l with
       | [] => None
       | T _ :: l' => among l'
       | E c :: l' =>
           match ancestors u c with
           | Some up => Some (up ++ [e])
           | None => among l'
           end
       end) ks.

(** Cut every subtree whose root is the node [u] out of the children. *)
Fixpoint prune_kids (rec : Element → Element) (u : nat) (l : list Node)
  : list Node :=
  match l with
  | [] => []
  | T s :: l' => T s :: prune_kids rec u l'
  | E c :: l' =>
      if has_uid u c then prune_kids rec u l'
      else E (rec c) :: prune_kids rec u l'
  end.

Fixpoint prune (u : nat) (e : Element) : Element :=
  let 'Elem v t a ks := e in Elem v t a (prune_kids (prune u) u ks).

(** A reference to an element, as Python code holds it: the tree the
    element lives in and its identity.  A detached element is the root of
    its own tree. *)
Record ref : Type := Ref { tree : Element; node : nat }.

Definition ref_in (t : Element) (e : Element) : ref := Ref t (uid_of e).

(** The element a reference denotes. *)
Definition deref (r : ref) : option Element :=
  snd <$> list_find (λ x, has_uid (node r) x = true) (elements (tree r)).

(** ** Sample documents

    A text document is an [office:text] body holding paragraphs.  The
    annotations are the ones the constructor makes for the text
    [review me] and the creator [Alice]. *)

Definition is_office_text (t : string) : bool :=
  bool_decide (t = "office:text").

Definition no_extraction (body start end_ : ref)
    (as_text no_header clean : bool) : pyval :=
  PElements [].

Definition sample_time : datetime := "2018-01-01T00:00:00".

Definition sample_annotation (u : nat) (name : string) : Element :=
  set_attribute
    (set_dc_date
       (set_dc_creator
          (set_text_content (from_tag u "office:annotation") "review me")
          "Alice")
       sample_time)
    "office:name" (Some name).

Definition sample_end (u : nat) (name : string) : Element :=
  set_attribute (from_tag u "office:annotation-end") "office:name" (Some name).

Definition sample_document (content : list Node) : Element :=
  Elem 0 "office:text" ∅ [E (Elem 1 "text:p" ∅ content)].

(** An empty paragraph, a point annotation, a range annotation, and two
    pairs whose annotations were both made outside the document and so
    share their name. *)
Definition doc_empty : Element := sample_document [].

Definition doc_point : Element :=
  sample_document
    [T "A paragraph "; E (sample_annotation 2 "__Fieldmark__lpod_1");
     T "with a remark."].

Definition doc_range : Element :=
  sample_document
    [T "A "; E (sample_annotation 2 "__Fieldmark__lpod_1"); T "paragraph";
     E (sample_end 3 "__Fieldmark__lpod_1"); T " with a remark."].

Definition doc_twins : Element :=
  sample_document
    [E (sample_annotation 2 "__Fieldmark__lpod_1"); T "one";
     E (sample_end 3 "__Fieldmark__lpod_1");
     E (sample_annotation 4 "__Fieldmark__lpod_1"); T "two";
     E (sample_end 5 "__Fieldmark__lpod_1")].

(** A footnote as the constructor builds it for the id [n1] and the
    citation [1], with an empty body. *)
Definition sample_note : Element :=
  set_attribute
    (set_attribute
       (insert_child
          (insert_child (from_tag 1 "text:note")
             (from_tag 2 "text:note-body") 0)
          (set_text (from_tag 3 "text:note-citation") "1") 0)
       "text:note-class" (Some "footnote"))
    "text:id" (Some "n1").

(** A paragraph to put into the body of a note. *)
Definition sample_paragraph : Element :=
  Elem 9 "text:p" ∅ [T "Author, A. "; E (Elem 10 "text:span" ∅ [T "(2007)."])].

(** A note as it can be read from a file that lacks the body region:
    class, id and citation are there. *)
Definition note_without_body : Element :=
  set_attribute
    (set_attribute
       (insert_child (from_tag 1 "text:note")
          (set_text (from_tag 2 "text:note-citation") "1") 0)
       "text:note-class" (Some "footnote"))
    "text:id" (Some "n1").

Section NotePy.

(** Which tags stand for the whole document body is decided by the
    document model, outside note.py. *)
Variable is_body : string → bool.

(** [Element.get_between] of element.py, the extraction primitive: called
    on the scope with the start and end markers and the three flags.
    note.py only forwards to it. *)
Variable get_between : ref → ref → ref → bool → bool → bool → pyval.

(** Modelled from the spec: the [parent] property of element.py,
    ancestor navigation; absent for the root of a tree. *)
Definition parent (r : ref) : option ref :=
  up ← ancestors (node r) (tree r); ref_in (tree r) <$> head up.

(** Modelled from the spec: the [document_body] property of element.py:
    the nearest ancestor that represents the whole document body; absent
    when the node is detached. *)
Definition document_body (r : ref) : option ref :=
  up ← ancestors (node r) (tree r);
  ref_in (tree r) <$> (snd <$> list_find (λ a, is_body (tag_of a) = true) up).

(** Modelled from the spec: the [root] property of element.py. *)
Definition root (r : ref) : ref := ref_in (tree r) (tree r).

(** Modelled from the spec: [Element.get_office_names] of element.py: all
    names currently assigned to name-bearing constructs visible from that
    scope, in document order. *)
Definition get_office_names (r : ref) : list string :=
  match deref r with
  | Some e => omap (λ x, get_attribute x "office:name") (elements e)
  | None => []
  end.

(** An element with tag [t] whose [office:name] equals [name]. *)
Definition named (t : string) (name : option string) (x : Element) : Prop :=
  tag_of x = t ∧ get_attribute x "office:name" = name.

#[global] Instance named_dec t name x : Decision (named t name x).
Proof. unfold named. apply _. Defined.

(** Modelled from the spec: the scoped lookups by name of element.py,
    [get_annotation] and [get_annotation_end]: the first element below the
    scope, in document order, that has the tag and whose name equals the
    name asked for, or [None]. *)
Definition lookup_named (t : string) (scope : ref) (name : option string)
  : option ref :=
  e ← deref scope;
  ref_in (tree scope) <$> (snd <$> list_find (named t name) (descendants e)).

(** Modelled from the spec: [Element.get_annotation] of element.py. *)
Definition get_annotation : ref → option string → option ref :=
  lookup_named "office:annotation".

(** Modelled from the spec: [Element.get_annotation_end] of element.py. *)
Definition get_annotation_end : ref → option string → option ref :=
  lookup_named "office:annotation-end".

(** Modelled from the spec: [Element.delete] of element.py, ordinary
    subtree removal: of [child] when it is given, of the element itself
    otherwise.  The result is the tree after the removal; a node that is
    not below the root of this tree leaves it as it is. *)
Definition Element_delete (r : ref) (child : option ref) : Element :=
  match child with
  | Some c => prune (node c) (tree r)
  | None => prune (node r) (tree r)
  end.

(** The [name] property that [_define_attribut_property] installs for
    [('name', 'office:name')]. *)
Definition name_of (r : ref) : option string :=
  e ← deref r; get_attribute e "office:name".

(** *** [get_unique_office_name], lines 31-52

    An [Element] defines neither [__bool__] nor [__len__], so [if body:]
    is a test for [None]. *)
Definition get_unique_office_name (fuel : nat) (element : option ref)
  : outcome string :=
  let body :=
    match element with
    | Some el => document_body el
    | None => None
    end in
  let used :=
    match body with
    | Some b => get_office_names b
    | None => []
    end in
  let used :=
    match element with
    | Some el => (used ++ get_office_names el)
    | None => used
    end in
  match office_name_loop fuel 1 used with
  | Some name => Return name
  | None => OutOfFuel
  end.

(** The two name sets the allocator probes against. *)
Definition scope_used_names (element : option ref) : list string :=
  match element ≫= document_body with
  | Some b => get_office_names b
  | None => []
  end.

Definition local_used_names (element : option ref) : list string :=
  match element with
  | Some el => get_office_names el
  | None => []
  end.

(** *** class [Note], lines 55-130

    The constructors below build a fresh element ([_do_init] is true);
    [u] is the identity of the new object, the identities after it go to
    the elements it creates. *)

Definition Note_citation (self : Element) : outcome string :=
  match get_element "text:note-citation" self with
  | Some (_, note_citation) => Return (get_text note_citation)
  | None => Raise (AttributeError "'NoneType' object has no attribute 'text'")
  end.

Definition Note_set_citation (self : Element) (text : string)
  : outcome Element :=
  match get_element "text:note-citation" self with
  | Some (i, _) => Return (with_child i (λ c, set_text c text) self)
  | None => Raise (AttributeError "'NoneType' object has no attribute 'text'")
  end.

Definition Note_note_body (self : Element) : outcome string :=
  match get_element "text:note-body" self with
  | Some (_, note_body) => Return (text_content note_body)
  | None =>
      Raise (AttributeError "'NoneType' object has no attribute 'text_content'")
  end.

Definition Note_set_note_body (self : Element) (text_or_element : pyval)
  : outcome Element :=
  let note_body := get_element "text:note-body" self in
  match text_or_element with
  | PStr s | PBytes s =>
      match note_body with
      | Some (i, _) => Return (with_child i (λ b, set_text_content b s) self)
      | None =>
          Raise (AttributeError
                   "'NoneType' object has no attribute 'text_content'")
      end
  | PElement el =>
      match note_body with
      | Some (i, _) =>
          Return (with_child i (λ b, append_child (clear b) el) self)
      | None =>
          Raise (AttributeError "'NoneType' object has no attribute 'clear'")
      end
  | _ =>
      Raise (ValueError ("Unexpected type for body: " +:+ dquote +:+
                         type_repr text_or_element +:+ dquote))
  end.

Definition Note_init (u : nat) (note_class : option string)
    (note_id citation : option string) (body : pyval) : outcome Element :=
  let self := from_tag u "text:note" in
  let self := insert_child self (from_tag (u + 1) "text:note-body") 0 in
  let self := insert_child self (from_tag (u + 2) "text:note-citation") 0 in
  let self := set_attribute self "text:note-class" note_class in
  let self :=
    match note_id with
    | Some i => set_attribute self "text:id" (Some i)
    | None => self
    end in
  self ← match citation with
         | Some c => Note_set_citation self c
         | None => Return self
         end;
  match body with
  | PNone => Return self
  | _ => Note_set_note_body self body
  end.

Definition Note_check_validity (self : Element) : outcome unit :=
  if negb (opt_truthy (get_attribute self "text:note-class")) then
    Raise (ValueError ("note class must be " +:+ dquote +:+ "footnote" +:+
                       dquote +:+ " or " +:+ dquote +:+ "endnote" +:+ dquote))
  else if negb (opt_truthy (get_attribute self "text:id")) then
    Raise (ValueError "notes must have an id")
  else
    citation ← Note_citation self;
    if negb (str_truthy citation) then
      Raise (ValueError "notes must have a citation")
    else
      note_body ← Note_note_body self;
      if negb (str_truthy note_body) then Return () else Return ().

(** *** class [Annotation], lines 133-269 *)

Definition Annotation_note_body (self : Element) : string :=
  text_content self.

Definition Annotation_set_note_body (self : Element) (text_or_element : pyval)
  : outcome Element :=
  match text_or_element with
  | PStr s | PBytes s => Return (set_text_content self s)
  | PElement el => Return (append_child (clear self) el)
  | _ => Raise (TypeError "expected unicode or Element")
  end.

Definition Annotation_init (fuel : nat) (u : nat) (text_or_element : pyval)
    (creator : option string) (date : option datetime) (name : option string)
    (parent : option ref) (now : datetime) : outcome Element :=
  self ← Annotation_set_note_body (from_tag u "office:annotation")
                                  text_or_element;
  let self :=
    match creator with
    | Some c => if str_truthy c then set_dc_creator self c else self
    | None => self
    end in
  let date :=
    match date with
    | None => now
    | Some d => d
    end in
  let self := set_dc_date self date in
  if negb (opt_truthy name) then
    name ← get_unique_office_name fuel parent;
    Return (set_attribute self "office:name" (Some name))
  else Return self.

Definition Annotation_start (self : ref) : ref := self.

Definition Annotation_end (self : ref) : outcome (option ref) :=
  let name := name_of self in
  match parent self with
  | None => Raise (ValueError "Can not find end tag: no parent available.")
  | Some parent =>
      let body := document_body self in
      let body :=
        match body with
        | Some b => b
        | None => parent
        end in
      Return (get_annotation_end body name)
  end.

Definition Annotation_get_annotated (self : ref)
    (as_text no_header clean : bool) : outcome pyval :=
  end_ ← Annotation_end self;
  match end_ with
  | None => if as_text then Return (PStr "") else Return PNone
  | Some end_ =>
      let body := document_body self in
      let body :=
        match body with
        | Some b => b
        | None => root self
        end in
      Return (get_between body self end_ as_text no_header clean)
  end.

(** [delete] returns the tree as the call leaves it. *)
Definition Annotation_delete (self : ref) (child : option ref)
  : outcome Element :=
  match child with
  | Some c => Return (Element_delete self (Some c))
  | None =>
      end_ ← Annotation_end self;
      let t :=
        match end_ with
        | Some end_ => Element_delete end_ None
        | None => tree self
        end in
      Return (Element_delete (Ref t (node self)) None)
  end.

(** [check_validity] returns the annotation as the call leaves it. *)
Definition Annotation_check_validity (now : datetime) (self : Element)
  : outcome Element :=
  if negb (str_truthy (Annotation_note_body self)) then
    Raise (ValueError "annotation must have a body")
  else if negb (opt_truthy (dc_creator self)) then
    Raise (ValueError "annotation must have a creator")
  else
    match dc_date self with
    | None => Return (set_dc_date self now)
    | Some _ => Return self
    end.

(** *** class [AnnotationEnd], lines 272-328 *)

Definition AnnotationEnd_init (u : nat) (annotation : option ref)
    (name : option string) : outcome Element :=
  let name :=
    match annotation with
    | Some a => name_of a
    | None => name
    end in
  if negb (opt_truthy name) then
    Raise (ValueError "Annotation-end must have a name")
  else Return (set_attribute (from_tag u "office:annotation-end")
                             "office:name" name).

Definition AnnotationEnd_start (self : ref) : outcome (option ref) :=
  let name := name_of self in
  match parent self with
  | None => Raise (ValueError "Can not find start tag: no parent available.")
  | Some parent =>
      let body := document_body self in
      let body :=
        match body with
        | Some b => b
        | None => parent
        end in
      Return (get_annotation body name)
  end.

Definition AnnotationEnd_end (self : ref) : ref := self.

(** *** Sequences of allocations

    [allocations] is [N] calls made one after the other while nothing
    else changes: every call sees the same tree.  [allocations_in_turn]
    puts each returned name in use before the next call. *)
Definition allocations (fuel : nat) (element : option ref) (N : nat)
  : list (outcome string) :=
  (λ _, get_unique_office_name fuel element) <$> seq 0 N.

Fixpoint allocations_in_turn (fuel : nat) (used : list string) (N : nat)
  : option (list string) :=
  match N with
  | O => Some []
  | S N' =>
      name ← office_name_loop fuel 1 used;
      rest ← allocations_in_turn fuel (name :: used) N';
      Some (name :: rest)
  end.

(** The scope that governs a marker: the document body if there is one,
    else the immediate parent. *)
Definition governing_scope (r : ref) : option ref :=
  match document_body r with
  | Some b => Some b
  | None => parent r
  end.

(** No element below the governing scope of [r] has tag [t] and the name
    of [r]. *)
Definition no_partner (t : string) (r : ref) : Prop :=
  ∀ sc SC, governing_scope r = Some sc → deref sc = Some SC →
    Forall (λ x, ¬ named t (name_of r) x) (descendants SC).

(** [r] is the only element with tag [t] and the name of [r] below
    [scope]. *)
Definition sole_named (t : string) (r scope : ref) : Prop :=
  ∀ SC, deref scope = Some SC →
    Forall (λ x, named t (name_of r) x → uid_of x = node r) (descendants SC).

(** The values the content setters accept: plain text or an element. *)
Definition is_content (v : pyval) : bool :=
  match v with
  | PStr _ | PBytes _ | PElement _ => true
  | _ => false
  end.

(** The values the [Note] constructor accepts as [body]: [None], which
    leaves the body region empty, or what the setter accepts. *)
Definition is_none_or_content (v : pyval) : bool :=
  match v with
  | PNone => true
  | _ => is_content v
  end.

(** The text a region reads back after [v] was written to it. *)
Definition content_text (v : pyval) : string :=
  match v with
  | PStr s | PBytes s => s
  | PElement el => text_content el
  | _ => ""
  end.

(** ** Facts about the allocator loop *)

Lemma fieldmark_name_inj i j : fieldmark_name i = fieldmark_name j → i = j.
Proof.
  unfold fieldmark_name. intros H.
  apply (inj (String.app "__Fieldmark__lpod_")) in H.
  by apply (inj pretty) in H.
Qed.

(** A run that exhausts its fuel has seen [fuel] consecutive used names. *)
Lemma office_name_loop_None fuel i used :
  office_name_loop fuel i used = None →
  ∀ j, i ≤ j → j < i + Z.of_nat fuel → fieldmark_name j ∈ used.
Proof.
  revert i. induction fuel as [|fuel IH]; intros i Hrun j Hj Hj'; [lia|].
  simpl in Hrun. case_bool_decide as Hin; [|done].
  destruct (decide (j = i)) as [->|Hne]; [done|].
  apply (IH (i + 1)); [done|lia..].
Qed.

(** A successful run returns the first free candidate at or after [i]. *)
Lemma office_name_loop_Some fuel i used name :
  office_name_loop fuel i used = Some name →
  ∃ k, i ≤ k ∧ name = fieldmark_name k ∧ (name ∉ used) ∧
       ∀ j, i ≤ j → j < k → fieldmark_name j ∈ used.
Proof.
  revert i. induction fuel as [|fuel IH]; intros i Hrun; [done|].
  simpl in Hrun. case_bool_decide as Hin.
  - destruct (IH _ Hrun) as (k & Hk & -> & Hfree & Hbelow).
    exists k. split_and!; [lia|done|done|].
    intros j Hj Hj'. destruct (decide (j = i)) as [->|Hne]; [done|].
    apply Hbelow; lia.
  - injection Hrun as <-. exists i. split_and!; [lia|done|done|]. intros; lia.
Qed.

Lemma candidates_NoDup i n : NoDup (candidates i n).
Proof.
  unfold candidates. apply NoDup_fmap_2_strong; [|apply NoDup_seqZ].
  intros x y _ _. apply fieldmark_name_inj.
Qed.

Lemma candidates_length i n : length (candidates i n) = n.
Proof. unfold candidates. rewrite length_fmap, length_seqZ. lia. Qed.

(** Pigeonhole: more fuel than used names always yields a result. *)
Lemma office_name_loop_terminates fuel i used :
  (length used < fuel)%nat → is_Some (office_name_loop fuel i used).
Proof.
  intros Hfuel.
  destruct (office_name_loop fuel i used) eqn:Hrun; [by eexists|].
  exfalso.
  assert (candidates i fuel ⊆+ used) as Hsub.
  { apply NoDup_submseteq; [apply candidates_NoDup|].
    intros x (j & -> & Hj)%list_elem_of_fmap.
    apply elem_of_seqZ in Hj.
    eapply office_name_loop_None; [done|lia..]. }
  apply submseteq_length in Hsub. rewrite candidates_length in Hsub. lia.
Qed.

(** Extra fuel does not change a result. *)
Lemma office_name_loop_mono fuel fuel' i used name :
  office_name_loop fuel i used = Some name → (fuel ≤ fuel')%nat →
  office_name_loop fuel' i used = Some name.
Proof.
  revert fuel' i. induction fuel as [|fuel IH]; intros fuel' i Hrun Hle; [done|].
  destruct fuel' as [|fuel']; [lia|].
  simpl in *. case_bool_decide; [|done].
  apply IH; [done|lia].
Qed.

(** ** Facts about the element tree *)

Lemma Element_ind (P : Element → Prop) :
  (∀ u t a ks, Forall P (child_elems ks) → P (Elem u t a ks)) →
  ∀ e, P e.
Proof.
  intros Hstep. fix IH 1. intros [u t a ks]. apply Hstep.
  induction ks as [|[s|c] ks IHks]; simpl; [constructor|done|].
  constructor; [apply IH|apply IHks].
Qed.

Lemma elements_unfold u t a ks :
  elements (Elem u t a ks) = Elem u t a ks :: (child_elems ks ≫= elements).
Proof.
  simpl. f_equal. induction ks as [|[s|c] ks IH]; simpl; [done|done|].
  f_equal. exact IH.
Qed.

Lemma elements_descendants e : elements e = e :: descendants e.
Proof. destruct e. apply elements_unfold. Qed.

Lemma elem_of_elements_self e : e ∈ elements e.
Proof. rewrite elements_descendants. left. Qed.

Lemma elem_of_descendants x e :
  x ∈ descendants e ↔ ∃ c, x ∈ elements c ∧ c ∈ child_elems (kids_of e).
Proof. unfold descendants. apply list_elem_of_bind. Qed.

Lemma elem_of_child_elems c ks : c ∈ child_elems ks ↔ E c ∈ ks.
Proof.
  unfold child_elems. rewrite list_elem_of_omap. split.
  - intros ([s|c'] & Hin & Heq); [done|]. by injection Heq as ->.
  - intros Hin. by exists (E c).
Qed.

Lemma descendants_elements x e : x ∈ descendants e → x ∈ elements e.
Proof. rewrite elements_descendants. by right. Qed.

Lemma child_elements x c e :
  x ∈ elements c → c ∈ child_elems (kids_of e) → x ∈ elements e.
Proof.
  intros Hx Hc. apply descendants_elements, elem_of_descendants. by exists c.
Qed.

(** Being inside a subtree is transitive. *)
Lemma elements_trans x y z :
  x ∈ elements y → y ∈ elements z → x ∈ elements z.
Proof.
  revert y. induction z as [u t a ks IH] using Element_ind. intros y Hxy.
  rewrite (elements_descendants (Elem _ _ _ _)).
  intros [->|Hyz]%elem_of_cons.
  { by rewrite <-elements_descendants. }
  right. apply elem_of_descendants in Hyz as (c & Hyc & Hc).
  apply elem_of_descendants. exists c. split; [|done].
  rewrite Forall_forall in IH. by eapply IH.
Qed.

Lemma descendants_trans x y z :
  x ∈ descendants y → y ∈ elements z → x ∈ descendants z.
Proof.
  intros Hxy Hyz.
  rewrite elements_descendants in Hyz. apply elem_of_cons in Hyz as [->|Hyz]; [done|].
  apply elem_of_descendants in Hyz as (c & Hyc & Hc).
  apply elem_of_descendants. exists c. split; [|done].
  eapply elements_trans; [|done]. by apply descendants_elements.
Qed.

Lemma elem_of_uids u e : u ∈ uids e ↔ ∃ x, x ∈ elements e ∧ uid_of x = u.
Proof.
  unfold uids. rewrite list_elem_of_fmap.
  split; intros (x & H1 & H2); exists x; by split.
Qed.

(** In a well-formed tree an identity picks one element. *)
Lemma wf_unique t x y :
  wf t → x ∈ elements t → y ∈ elements t → uid_of x = uid_of y → x = y.
Proof.
  unfold wf, uids. generalize (elements t) as l.
  induction l as [|z l IH]; intros Hnd Hx Hy Heq; [by apply elem_of_nil in Hx|].
  rewrite fmap_cons in Hnd. apply NoDup_cons in Hnd as [Hz Hnd].
  apply elem_of_cons in Hx as [->|Hx]; apply elem_of_cons in Hy as [->|Hy].
  - done.
  - destruct Hz. rewrite Heq. by apply list_elem_of_fmap_2.
  - destruct Hz. rewrite <-Heq. by apply list_elem_of_fmap_2.
  - by apply IH.
Qed.

Lemma deref_Some r x :
  deref r = Some x → x ∈ elements (tree r) ∧ uid_of x = node r.
Proof.
  unfold deref. intros Hfind.
  apply fmap_Some in Hfind as ([i y] & Hfind & ->).
  apply list_find_Some in Hfind as (Hi & Hy & _). simpl. split.
  - by eapply list_elem_of_lookup_2.
  - unfold has_uid in Hy. by apply bool_decide_eq_true in Hy.
Qed.

Lemma deref_is_Some r x :
  x ∈ elements (tree r) → uid_of x = node r → is_Some (deref r).
Proof.
  intros Hin Hu. unfold deref. apply fmap_is_Some.
  eapply list_find_elem_of; [done|].
  unfold has_uid. by apply bool_decide_eq_true.
Qed.

Lemma deref_wf t a : wf t → a ∈ elements t → deref (ref_in t a) = Some a.
Proof.
  intros Hwf Ha.
  destruct (deref_is_Some (ref_in t a) a) as [x Hx]; [done..|].
  rewrite Hx. f_equal.
  apply deref_Some in Hx as [Hin Hu]. by eapply wf_unique.
Qed.

(** What [ancestors] returns: elements of the tree, each with the node
    strictly below it; the list is empty exactly at the root. *)
Lemma ancestors_spec u t up :
  ancestors u t = Some up →
  (up = [] ↔ uid_of t = u) ∧
  ∀ a, a ∈ up →
    a ∈ elements t ∧ ∃ x, x ∈ descendants a ∧ uid_of x = u.
Proof.
  revert up. induction t as [v tg at_ ks IH] using Element_ind. intros up.
  simpl. case_bool_decide as Hv.
  { intros [= <-]. split; [done|]. intros a Ha. by apply elem_of_nil in Ha. }
  set (self := Elem v tg at_ ks). intros Hamong.
  assert (∃ c up', c ∈ child_elems ks ∧ ancestors u c = Some up' ∧
                   up = up' ++ [self]) as (c & up' & Hc & Hup' & ->).
  { clear IH. clearbody self.
    induction ks as [|[s|c] ks IHks]; [done|by apply IHks|].
    destruct (ancestors u c) as [up'|] eqn:Hc.
    - injection Hamong as <-. exists c, up'. split; [left|done].
    - destruct (IHks Hamong) as (c' & up' & Hc' & Hrest).
      exists c', up'. split; [by right|done]. }
  rewrite Forall_forall in IH. destruct (IH c Hc up' Hup') as [Hroot Hall].
  split.
  { split; [by destruct up'|done]. }
  assert (∃ x, x ∈ elements c ∧ uid_of x = u) as (x & Hx & Hxu).
  { destruct up' as [|a up'] using rev_ind.
    - exists c. split; [apply elem_of_elements_self|by apply Hroot].
    - destruct (Hall a) as (Ha & x & Hx & Hxu);
        [apply elem_of_app; right; apply list_elem_of_singleton; done|].
      exists x. split; [|done].
      eapply elements_trans; [by apply descendants_elements|done]. }
  intros a [Ha|Ha]%elem_of_app.
  - destruct (Hall a Ha) as (Hin & y & Hy & Hyu). split; [|by exists y].
    by apply (child_elements a c self).
  - apply list_elem_of_singleton in Ha as ->. split; [apply elem_of_elements_self|].
    exists x. split; [|done]. apply elem_of_descendants. by exists c.
Qed.

(** The scoped lookup finds an element below the scope that has the tag
    and the name, the first one in document order, or nothing when there
    is none. *)
Lemma lookup_named_Some t sc name r :
  lookup_named t sc name = Some r →
  ∃ SC i x, deref sc = Some SC ∧ descendants SC !! i = Some x ∧
            named t name x ∧ r = ref_in (tree sc) x ∧
            ∀ j y, descendants SC !! j = Some y → (j < i)%nat →
                   ¬ named t name y.
Proof.
  unfold lookup_named. intros Hlook.
  destruct (deref sc) as [SC|] eqn:Hsc; [|done]. simpl in Hlook.
  apply fmap_Some in Hlook as (x & Hfind & ->).
  apply fmap_Some in Hfind as ([i y] & Hfind & ->).
  apply list_find_Some in Hfind as (Hi & Hnamed & Hfirst).
  by exists SC, i, y.
Qed.

Lemma lookup_named_None t sc name :
  lookup_named t sc name = None ↔
  ∀ SC, deref sc = Some SC → Forall (λ x, ¬ named t name x) (descendants SC).
Proof.
  unfold lookup_named. destruct (deref sc) as [SC|]; simpl; [|by split].
  rewrite !fmap_None, list_find_None. split.
  - by intros H ? [= <-].
  - intros H. by apply H.
Qed.

Lemma lookup_named_unique t sc name SC x :
  deref sc = Some SC → x ∈ descendants SC → named t name x →
  (∀ y, y ∈ descendants SC → named t name y → uid_of y = uid_of x) →
  lookup_named t sc name = Some (ref_in (tree sc) x).
Proof.
  intros Hsc Hx Hnamed Huniq.
  destruct (lookup_named t sc name) as [r|] eqn:Hlook.
  - apply lookup_named_Some in Hlook
      as (SC' & i & y & Hsc' & Hi & Hy & -> & _).
    rewrite Hsc in Hsc'. injection Hsc' as <-.
    unfold ref_in. do 2 f_equal. apply Huniq; [|done].
    by eapply list_elem_of_lookup_2.
  - rewrite lookup_named_None in Hlook. specialize (Hlook SC Hsc).
    rewrite Forall_forall in Hlook. by destruct (Hlook x Hx).
Qed.

(** *** Removal of a subtree *)

Lemma prune_uid u e : uid_of (prune u e) = uid_of e.
Proof. by destruct e. Qed.

Lemma kids_of_prune u e :
  kids_of (prune u e) = prune_kids (prune u) u (kids_of e).
Proof. by destruct e. Qed.

Lemma elem_of_prune_kids u ks c' :
  c' ∈ child_elems (prune_kids (prune u) u ks) ↔
  ∃ c, c ∈ child_elems ks ∧ uid_of c ≠ u ∧ c' = prune u c.
Proof.
  induction ks as [|[s|c] ks IH]; simpl.
  - split; [by intros ?%elem_of_nil|]. by intros (c & ?%elem_of_nil & _).
  - done.
  - unfold has_uid. case_bool_decide as Hc; simpl.
    + rewrite IH. split.
      * intros (c0 & Hin & Hne & ->). exists c0. split; [by right|done].
      * intros (c0 & [->|Hin]%elem_of_cons & Hne & ->); [done|by exists c0].
    + rewrite elem_of_cons, IH. split.
      * intros [->|(c0 & Hin & Hne & ->)]; [exists c; split; [left|done]|].
        exists c0. split; [by right|done].
      * intros (c0 & [->|Hin]%elem_of_cons & Hne & ->); [by left|].
        right. by exists c0.
Qed.

(** After the removal the identity [u] is gone, unless it is the root's. *)
Lemma prune_gone u t x :
  x ∈ elements (prune u t) → uid_of x = u → x = prune u t.
Proof.
  induction t as [v tg a ks IH] using Element_ind. intros Hx Hu.
  rewrite elements_descendants in Hx.
  apply elem_of_cons in Hx as [->|Hx]; [done|].
  apply elem_of_descendants in Hx as (c' & Hx & Hc').
  rewrite kids_of_prune in Hc'.
  apply elem_of_prune_kids in Hc' as (c & Hc & Hne & ->).
  rewrite Forall_forall in IH.
  rewrite (IH c Hc Hx Hu), prune_uid in Hu. done.
Qed.

Lemma prune_not_in_uids u t : uid_of t ≠ u → u ∉ uids (prune u t).
Proof.
  intros Hroot (x & Hx & Hu)%elem_of_uids.
  apply prune_gone in Hx; [|done]. subst x. by rewrite prune_uid in Hu.
Qed.

(** The removal adds no node. *)
Lemma prune_uids_subset u t v : v ∈ uids (prune u t) → v ∈ uids t.
Proof.
  induction t as [w tg a ks IH] using Element_ind.
  intros (x & Hx & Hv)%elem_of_uids. apply elem_of_uids.
  rewrite elements_descendants in Hx.
  apply elem_of_cons in Hx as [->|Hx].
  { exists (Elem w tg a ks). split; [apply elem_of_elements_self|done]. }
  apply elem_of_descendants in Hx as (c' & Hx & Hc').
  rewrite kids_of_prune in Hc'.
  apply elem_of_prune_kids in Hc' as (c & Hc & Hne & ->).
  rewrite Forall_forall in IH.
  destruct (proj1 (elem_of_uids v c)) as (y & Hy & Hyv).
  { apply (IH c Hc). apply elem_of_uids. by exists x. }
  exists y. split; [|done]. by apply (child_elements y c (Elem w tg a ks)).
Qed.

(** A subtree that does not hold [u] is left as it is. *)
Lemma prune_id u x : u ∉ uids x → prune u x = x.
Proof.
  induction x as [w tg a ks IH] using Element_ind. intros Hu. simpl. f_equal.
  assert (∀ c, c ∈ child_elems ks → u ∉ uids c) as Hkids.
  { intros c Hc (y & Hy & Hyu)%elem_of_uids. apply Hu, elem_of_uids.
    exists y. split; [|done]. by apply (child_elements y c (Elem w tg a ks)). }
  clear Hu. induction ks as [|[s|c] ks IHks]; simpl; [done|..].
  - f_equal. by apply IHks.
  - apply Forall_cons in IH as [IHc IH].
    assert (u ∉ uids c) as Hc by (apply Hkids; left).
    unfold has_uid. rewrite bool_decide_eq_false_2.
    + rewrite (IHc Hc). f_equal. apply IHks; [done|].
      intros c' Hc'. apply Hkids. by right.
    + intros Heq. apply Hc, elem_of_uids. exists c.
      split; [apply elem_of_elements_self|done].
Qed.

(** Every node outside the removed subtree keeps its place in the tree. *)
Lemma prune_uids_kept u t v :
  v ∈ uids t →
  (∀ S, S ∈ elements t → uid_of S = u → v ∉ uids S) →
  v ∈ uids (prune u t).
Proof.
  induction t as [w tg a ks IH] using Element_ind.
  intros (x & Hx & Hv)%elem_of_uids Hout. apply elem_of_uids.
  rewrite elements_descendants in Hx.
  apply elem_of_cons in Hx as [->|Hx].
  { exists (prune u (Elem w tg a ks)).
    split; [apply elem_of_elements_self|by rewrite prune_uid]. }
  apply elem_of_descendants in Hx as (c & Hx & Hc).
  assert (c ∈ elements (Elem w tg a ks)) as Hct
    by (apply (child_elements c c); [apply elem_of_elements_self|done]).
  destruct (decide (uid_of c = u)) as [Hcu|Hcu].
  { destruct (Hout c Hct Hcu). apply elem_of_uids. by exists x. }
  rewrite Forall_forall in IH.
  destruct (proj1 (elem_of_uids v (prune u c))) as (y & Hy & Hyv).
  { apply (IH c Hc); [apply elem_of_uids; by exists x|].
    intros S HS. apply Hout. by eapply elements_trans. }
  exists y. split; [|done].
  apply (child_elements y (prune u c)); [done|].
  rewrite kids_of_prune. apply elem_of_prune_kids. by exists c.
Qed.

(** Every subtree that neither holds the removed node nor lies inside the
    removed subtree is in the tree after the removal, unchanged. *)
Lemma prune_elements_kept u t x :
  x ∈ elements t → u ∉ uids x →
  (∀ S, S ∈ elements t → uid_of S = u → x ∉ elements S) →
  x ∈ elements (prune u t).
Proof.
  induction t as [w tg a ks IH] using Element_ind. intros Hx Hu Hout.
  rewrite elements_descendants in Hx.
  apply elem_of_cons in Hx as [->|Hx].
  { rewrite (prune_id _ _ Hu). apply elem_of_elements_self. }
  apply elem_of_descendants in Hx as (c & Hx & Hc).
  assert (c ∈ elements (Elem w tg a ks)) as Hct
    by (apply (child_elements c c); [apply elem_of_elements_self|done]).
  destruct (decide (uid_of c = u)) as [Hcu|Hcu].
  { by destruct (Hout c Hct Hcu). }
  rewrite Forall_forall in IH.
  apply (child_elements x (prune u c)).
  - apply (IH c Hc); [done..|].
    intros S HS. apply Hout. by eapply elements_trans.
  - rewrite kids_of_prune. apply elem_of_prune_kids. by exists c.
Qed.

Lemma get_unique_office_name_unfold fuel element :
  get_unique_office_name fuel element =
  match office_name_loop fuel 1
          (scope_used_names element ++ local_used_names element) with
  | Some name => Return name
  | None => OutOfFuel
  end.
Proof.
  unfold get_unique_office_name, scope_used_names, local_used_names.
  destruct element as [el|]; simpl; [|done].
  by destruct (document_body el).
Qed.

Lemma office_name_loop_first_free fuel used :
  (length used < fuel)%nat →
  ∃ k, 1 ≤ k ∧ office_name_loop fuel 1 used = Some (fieldmark_name k) ∧
       (fieldmark_name k ∉ used) ∧
       ∀ j, 1 ≤ j → j < k → fieldmark_name j ∈ used.
Proof.
  intros Hfuel.
  destruct (office_name_loop_terminates fuel 1 used Hfuel) as [name Hrun].
  destruct (office_name_loop_Some _ _ _ _ Hrun) as (k & Hk & -> & Hfree & Hlow).
  by exists k.
Qed.

(** C2: the allocator returns the first name of the sequence
    [__Fieldmark__lpod_1], [__Fieldmark__lpod_2], ... that is in neither
    of the two used-name sets: for any two sets at the level of the loop,
    and for the sets [get_unique_office_name] reads off its argument.
    With no name in use the result is [__Fieldmark__lpod_1]; with exactly
    that name in use it is [__Fieldmark__lpod_2]. *)
Theorem get_unique_office_name_first_free
    (fuel : nat) (scope_used local_used : list string) :
  (length (scope_used ++ local_used) < fuel)%nat →
  ∃ k, 1 ≤ k ∧
    office_name_loop fuel 1 (scope_used ++ local_used)
      = Some (fieldmark_name k) ∧
    (∀ element, scope_used_names element = scope_used →
                local_used_names element = local_used →
       get_unique_office_name fuel element = Return (fieldmark_name k)) ∧
    (fieldmark_name k ∉ scope_used) ∧ (fieldmark_name k ∉ local_used) ∧
    (∀ j, 1 ≤ j → j < k →
       fieldmark_name j ∈ scope_used ∨ fieldmark_name j ∈ local_used) ∧
    (scope_used ++ local_used = [] →
       fieldmark_name k = "__Fieldmark__lpod_1") ∧
    ((∀ x, x ∈ scope_used ++ local_used ↔ x = "__Fieldmark__lpod_1") →
       fieldmark_name k = "__Fieldmark__lpod_2").
Proof.
  intros Hfuel.
  destruct (office_name_loop_first_free _ _ Hfuel) as (k & Hk & Hrun & Hfree & Hlow).
  exists k. split_and!; try done.
  - intros element <- <-. by rewrite get_unique_office_name_unfold, Hrun.
  - set_solver.
  - set_solver.
  - intros j Hj Hjk. apply elem_of_app. by apply Hlow.
  - intros Hnil. rewrite Hnil in Hlow.
    destruct (decide (k = 1)) as [->|Hne]; [done|].
    specialize (Hlow 1). set_solver by lia.
  - intros Hone.
    assert (k ≠ 1) as Hk1.
    { intros ->. apply Hfree, Hone. reflexivity. }
    destruct (decide (k = 2)) as [->|Hne]; [done|].
    assert (fieldmark_name 2 ∈ scope_used ++ local_used) as Hin
      by (apply Hlow; lia).
    apply Hone in Hin. by apply (fieldmark_name_inj 2 1) in Hin.
Qed.

Lemma allocations_in_turn_distinct fuel used N :
  (length used + N ≤ fuel)%nat →
  ∃ names, allocations_in_turn fuel used N = Some names ∧
           length names = N ∧ NoDup names ∧ ∀ n, n ∈ names → n ∉ used.
Proof.
  revert used. induction N as [|N IH]; intros used Hfuel.
  { exists []. split_and!; [done|done|constructor|set_solver]. }
  destruct (office_name_loop_first_free fuel used) as (k & _ & Hrun & Hfree & _);
    [lia|].
  destruct (IH (fieldmark_name k :: used)) as (rest & Hrest & Hlen & Hnd & Hout);
    [simpl; lia|].
  exists (fieldmark_name k :: rest). simpl. rewrite Hrun. simpl.
  rewrite Hrest. simpl. split_and!; [done|by rewrite Hlen| |].
  - constructor; [|done]. intros Hin. apply Hout in Hin. set_solver.
  - intros n [->|Hin]%elem_of_cons; [done|].
    apply Hout in Hin. set_solver.
Qed.

(** C1 (amended): [N] calls against one unchanging used-name set all
    return the same name, and that name is not in the set; the [N] names
    are pairwise distinct, and outside the original set, when each
    returned name is put in use before the next call. *)
Theorem get_unique_office_name_unique
    (fuel : nat) (element : option ref) (N : nat) :
  let used := (scope_used_names element ++ local_used_names element) in
  (length used + N < fuel)%nat →
  (∃ name, allocations fuel element N = replicate N (Return name) ∧
           name ∉ used) ∧
  (∃ names, allocations_in_turn fuel used N = Some names ∧
            length names = N ∧ NoDup names ∧ ∀ n, n ∈ names → n ∉ used).
Proof.
  intros used Hfuel. split.
  - destruct (office_name_loop_first_free fuel used) as (k & _ & Hrun & Hfree & _);
      [lia|].
    exists (fieldmark_name k). split; [|done].
    unfold allocations. rewrite get_unique_office_name_unfold.
    fold used. rewrite Hrun. clear.
    generalize 0%nat. induction N as [|N IH]; intros n; simpl; [done|].
    by rewrite IH.
  - apply allocations_in_turn_distinct. lia.
Qed.

(** ** Partner lookup, extraction and deletion *)

Lemma wf_descendant_uid t x : wf t → x ∈ descendants t → uid_of x ≠ uid_of t.
Proof.
  unfold wf, uids. rewrite elements_descendants, fmap_cons.
  intros [Hroot _]%NoDup_cons Hx Heq. apply Hroot. rewrite <-Heq.
  by apply list_elem_of_fmap_2.
Qed.

Lemma parent_Some_not_root r p : parent r = Some p → uid_of (tree r) ≠ node r.
Proof.
  unfold parent. intros Hp Hroot.
  destruct (ancestors (node r) (tree r)) as [up|] eqn:Hup; [|done].
  apply ancestors_spec in Hup as [Hnil _].
  apply Hnil in Hroot. by subst up.
Qed.

(** The governing scope is an ancestor of the marker, in the same tree. *)
Lemma governing_scope_ancestor r sc :
  governing_scope r = Some sc →
  ∃ up a, ancestors (node r) (tree r) = Some up ∧ a ∈ up ∧
          sc = ref_in (tree r) a.
Proof.
  unfold governing_scope, document_body, parent.
  destruct (ancestors (node r) (tree r)) as [up|] eqn:Hup; simpl; [|done].
  destruct (list_find _ up) as [[i b]|] eqn:Hfind; simpl.
  - intros [= <-]. exists up, b. split_and!; [done| |done].
    apply list_find_Some in Hfind as (Hi & _). by eapply list_elem_of_lookup_2.
  - destruct up as [|a up']; simpl; [done|].
    intros [= <-]. exists (a :: up'), a. split_and!; [done|left|done].
Qed.

Lemma Annotation_end_unfold self p :
  parent self = Some p →
  ∃ scope, governing_scope self = Some scope ∧
    scope = match document_body self with Some b => b | None => p end ∧
    Annotation_end self = Return (get_annotation_end scope (name_of self)) ∧
    AnnotationEnd_start self = Return (get_annotation scope (name_of self)).
Proof.
  intros Hp. unfold governing_scope, Annotation_end, AnnotationEnd_start.
  rewrite Hp. destruct (document_body self) as [b|]; eauto.
Qed.

(** C6: partner lookup raises the structural error exactly when the node
    has no parent.  Otherwise it returns what the scoped lookup finds in
    the governing scope (the document body if there is one, else the
    parent) for the node's own name: the first element below the scope,
    in document order, with the partner's tag and that name, and the soft
    result [None] when there is none. *)
Theorem partner_lookup_error_iff_no_parent (self : ref) :
  (Annotation_end self
     = Raise (ValueError "Can not find end tag: no parent available.")
   ↔ parent self = None) ∧
  (AnnotationEnd_start self
     = Raise (ValueError "Can not find start tag: no parent available.")
   ↔ parent self = None) ∧
  (raises (Annotation_end self) ↔ parent self = None) ∧
  (raises (AnnotationEnd_start self) ↔ parent self = None) ∧
  (∀ p, parent self = Some p →
     ∃ scope, governing_scope self = Some scope ∧
       scope = match document_body self with Some b => b | None => p end ∧
       Annotation_end self
         = Return (get_annotation_end scope (name_of self)) ∧
       AnnotationEnd_start self
         = Return (get_annotation scope (name_of self))) ∧
  (∀ t scope name,
     match lookup_named t scope name with
     | Some r =>
         ∃ SC i x, deref scope = Some SC ∧ descendants SC !! i = Some x ∧
           named t name x ∧ r = ref_in (tree scope) x ∧
           ∀ j y, descendants SC !! j = Some y → (j < i)%nat →
                  ¬ named t name y
     | None =>
         ∀ SC, deref scope = Some SC →
               Forall (λ x, ¬ named t name x) (descendants SC)
     end).
Proof.
  split_and!.
  - unfold Annotation_end. destruct (parent self); [by split|done].
  - unfold AnnotationEnd_start. destruct (parent self); [by split|done].
  - unfold raises, Annotation_end. destruct (parent self); split;
      [by intros [? ?]|done|done|by eexists].
  - unfold raises, AnnotationEnd_start. destruct (parent self); split;
      [by intros [? ?]|done|done|by eexists].
  - apply Annotation_end_unfold.
  - intros t scope name.
    destruct (lookup_named t scope name) as [r|] eqn:Hlook.
    + by apply lookup_named_Some.
    + by apply lookup_named_None.
Qed.

(** C3: for an annotation that has a parent and no annotation-end of its
    name below its governing scope, [get_annotated] returns the empty
    text when [as_text] is set and [None] otherwise, whatever
    [get_between] would extract. *)
Theorem get_annotated_without_partner
    (self p : ref) (as_text no_header clean : bool) :
  parent self = Some p →
  no_partner "office:annotation-end" self →
  Annotation_end self = Return None ∧
  Annotation_get_annotated self as_text no_header clean
    = Return (if as_text then PStr "" else PNone).
Proof.
  intros Hp Hnone.
  destruct (Annotation_end_unfold self p Hp) as (scope & Hscope & _ & Hend & _).
  assert (get_annotation_end scope (name_of self) = None) as Hlook.
  { apply lookup_named_None. intros SC HSC. by eapply Hnone. }
  rewrite Hlook in Hend. split; [done|].
  unfold Annotation_get_annotated. rewrite Hend. simpl. by destruct as_text.
Qed.

Lemma elem_of_prune u t x :
  x ∈ elements (prune u t) → ∃ y, y ∈ elements t ∧ x = prune u y.
Proof.
  induction t as [w tg a ks IH] using Element_ind. intros Hx.
  rewrite elements_descendants in Hx.
  apply elem_of_cons in Hx as [->|Hx].
  { eexists. split; [apply elem_of_elements_self|done]. }
  apply elem_of_descendants in Hx as (c' & Hx & Hc').
  rewrite kids_of_prune in Hc'.
  apply elem_of_prune_kids in Hc' as (c & Hc & Hne & ->).
  rewrite Forall_forall in IH. destruct (IH c Hc Hx) as (y & Hy & ->).
  exists y. split; [|done]. by apply (child_elements y c (Elem w tg a ks)).
Qed.

(** What the scoped lookup returns lies strictly below the root. *)
Lemma Annotation_end_Some self end_ :
  wf (tree self) → Annotation_end self = Return (Some end_) →
  tree end_ = tree self ∧ node end_ ≠ uid_of (tree self) ∧
  uid_of (tree self) ≠ node self.
Proof.
  intros Hwf Hend.
  destruct (parent self) as [p|] eqn:Hp;
    [|by unfold Annotation_end in Hend; rewrite Hp in Hend].
  destruct (Annotation_end_unfold self p Hp) as (scope & Hscope & _ & Hend' & _).
  rewrite Hend' in Hend. injection Hend as Hlook.
  apply governing_scope_ancestor in Hscope as (up & a & Hup & Ha & ->).
  apply ancestors_spec in Hup as [_ Hall]. destruct (Hall a Ha) as [Hin _].
  apply lookup_named_Some in Hlook as (SC & i & x & HSC & Hi & _ & -> & _).
  rewrite (deref_wf _ _ Hwf Hin) in HSC. injection HSC as <-.
  simpl. split_and!; [done| |by eapply parent_Some_not_root].
  apply wf_descendant_uid; [done|].
  eapply descendants_trans; [by eapply list_elem_of_lookup_2|done].
Qed.

(** C4: [delete()] on an annotation whose end marker is found removes the
    end marker first and then the annotation: neither is in the tree
    afterwards, nothing is added, and every node outside the two removed
    subtrees stays.  When no end marker is found only the annotation is
    removed: every node outside its subtree stays, and every subtree that
    does not hold the annotation is unchanged. *)
Theorem Annotation_delete_cascade (self : ref) :
  wf (tree self) →
  (∀ end_, Annotation_end self = Return (Some end_) →
     let t' := prune (node self) (prune (node end_) (tree self)) in
     Annotation_delete self None = Return t' ∧
     (node self ∉ uids t') ∧ (node end_ ∉ uids t') ∧
     (∀ v, v ∈ uids t' → v ∈ uids (tree self)) ∧
     (∀ v, v ∈ uids (tree self) →
        (∀ S, S ∈ elements (tree self) →
              uid_of S = node self ∨ uid_of S = node end_ → v ∉ uids S) →
        v ∈ uids t')) ∧
  (Annotation_end self = Return None →
     let t' := prune (node self) (tree self) in
     Annotation_delete self None = Return t' ∧
     (node self ∉ uids t') ∧
     (∀ v, v ∈ uids t' → v ∈ uids (tree self)) ∧
     (∀ v, v ∈ uids (tree self) →
        (∀ S, S ∈ elements (tree self) → uid_of S = node self →
              v ∉ uids S) →
        v ∈ uids t') ∧
     (∀ x, x ∈ elements (tree self) → node self ∉ uids x →
        (∀ S, S ∈ elements (tree self) → uid_of S = node self →
              x ∉ elements S) →
        x ∈ elements t')).
Proof.
  intros Hwf. split.
  - intros end_ Hend t'.
    destruct (Annotation_end_Some _ _ Hwf Hend) as (Htree & Hne & Hroot).
    split_and!.
    + unfold Annotation_delete. rewrite Hend. simpl. by rewrite Htree.
    + apply prune_not_in_uids. by rewrite prune_uid.
    + intros Hin. apply prune_uids_subset in Hin.
      by apply (prune_not_in_uids (node end_) (tree self)).
    + intros v Hv. by do 2 apply prune_uids_subset in Hv.
    + intros v Hv Hout. apply prune_uids_kept.
      * apply prune_uids_kept; [done|]. intros S HS Hu. apply Hout; auto.
      * intros S' HS' Hu Hin.
        apply elem_of_prune in HS' as (S & HS & ->).
        rewrite prune_uid in Hu. apply prune_uids_subset in Hin.
        by apply (Hout S HS); [left|].
  - intros Hend t'.
    assert (uid_of (tree self) ≠ node self) as Hroot.
    { destruct (parent self) as [p|] eqn:Hp;
        [by eapply parent_Some_not_root|].
      by unfold Annotation_end in Hend; rewrite Hp in Hend. }
    split_and!.
    + unfold Annotation_delete. by rewrite Hend.
    + by apply prune_not_in_uids.
    + intros v. apply prune_uids_subset.
    + intros v. apply prune_uids_kept.
    + intros x. apply prune_elements_kept.
Qed.

Lemma governing_scope_parent r sc :
  governing_scope r = Some sc → is_Some (parent r).
Proof.
  intros (up & a & Hup & Ha & _)%governing_scope_ancestor.
  unfold parent. rewrite Hup. simpl. destruct up; [by apply elem_of_nil in Ha|].
  by eexists.
Qed.

(** A marker that is in the tree lies below its governing scope. *)
Lemma governing_scope_below t u x sc :
  wf t → deref (Ref t u) = Some x → governing_scope (Ref t u) = Some sc →
  ∃ SC, deref sc = Some SC ∧ tree sc = t ∧ x ∈ descendants SC.
Proof.
  intros Hwf Hx (up & a & Hup & Ha & ->)%governing_scope_ancestor.
  simpl in *. apply ancestors_spec in Hup as [_ Hall].
  destruct (Hall a Ha) as (Hin & y & Hy & Hyu).
  exists a. split_and!; [by apply deref_wf|done|].
  apply deref_Some in Hx as [Hxin Hxu]. simpl in *.
  assert (y ∈ elements t) as Hyin.
  { eapply elements_trans; [by apply descendants_elements|done]. }
  by rewrite (wf_unique t x y Hwf Hxin Hyin) by congruence.
Qed.

Lemma AnnotationEnd_init_Return u annotation name E0 :
  AnnotationEnd_init u annotation name = Return E0 →
  ∃ n, match annotation with Some a => name_of a | None => name end = Some n ∧
       n ≠ "" ∧
       E0 = Elem u "office:annotation-end" {["office:name" := n]} [].
Proof.
  unfold AnnotationEnd_init.
  destruct (match annotation with Some a => name_of a | None => name end)
    as [n|]; simpl; [|done].
  unfold str_truthy. case_decide; simpl; [done|].
  intros [= <-]. exists n. split_and!; [done..|].
  done.
Qed.

(** C5 (amended): a start marker and the end marker created from it,
    both attached below the same governing scope, find each other,
    provided no other end marker and no other annotation below that scope
    carries their name. *)
Theorem pairing_symmetry
    (t : Element) (s e : nat) (start0 scope : ref) (S E0 : Element)
    (nm : option string) :
  wf t →
  AnnotationEnd_init e (Some start0) nm = Return E0 →
  name_of start0 = name_of (Ref t s) →
  deref (Ref t s) = Some S → tag_of S = "office:annotation" →
  deref (Ref t e) = Some E0 →
  governing_scope (Ref t s) = Some scope →
  governing_scope (Ref t e) = Some scope →
  sole_named "office:annotation-end" (Ref t e) scope →
  sole_named "office:annotation" (Ref t s) scope →
  Annotation_end (Ref t s) = Return (Some (Ref t e)) ∧
  AnnotationEnd_start (Ref t e) = Return (Some (Ref t s)).
Proof.
  intros Hwf Hinit Hname HS Htag HE Hscs Hsce Hsole_e Hsole_s.
  apply AnnotationEnd_init_Return in Hinit as (n & Hn & Hne & HE0).
  rewrite Hname in Hn.
  assert (name_of (Ref t e) = Some n) as Hne_name.
  { unfold name_of. rewrite HE. simpl. subst E0.
    unfold get_attribute. simpl. apply lookup_singleton_eq. }
  assert (uid_of E0 = e ∧ uid_of S = s) as [HuE HuS].
  { apply deref_Some in HE as [_ ?], HS as [_ ?]. done. }
  destruct (governing_scope_below _ _ _ _ Hwf HS Hscs) as (SC & HSC & Htree & HSin).
  destruct (governing_scope_below _ _ _ _ Hwf HE Hsce) as (SC' & HSC' & _ & HEin).
  rewrite HSC in HSC'. injection HSC' as <-.
  specialize (Hsole_e SC HSC). specialize (Hsole_s SC HSC).
  rewrite Forall_forall in Hsole_e, Hsole_s. rewrite Hne_name in Hsole_e.
  rewrite Hn in Hsole_s. simpl in *.
  split.
  - destruct (governing_scope_parent _ _ Hscs) as [p Hp].
    destruct (Annotation_end_unfold _ p Hp) as (sc & Hsc & _ & -> & _).
    rewrite Hscs in Hsc. injection Hsc as <-. rewrite Hn. f_equal.
    unfold get_annotation_end.
    rewrite (lookup_named_unique _ _ _ SC E0 HSC HEin).
    + unfold ref_in. by rewrite Htree, HuE.
    + split; [by subst E0|].
      subst E0. unfold get_attribute. simpl. apply lookup_singleton_eq.
    + intros y Hy Hnamed. rewrite HuE. by apply Hsole_e.
  - destruct (governing_scope_parent _ _ Hsce) as [p Hp].
    destruct (Annotation_end_unfold _ p Hp) as (sc & Hsc & _ & _ & ->).
    rewrite Hsce in Hsc. injection Hsc as <-. rewrite Hne_name. f_equal.
    unfold get_annotation.
    rewrite (lookup_named_unique _ _ _ SC S HSC HSin).
    + unfold ref_in. by rewrite Htree, HuS.
    + split; [done|]. unfold name_of in Hn. by rewrite HS in Hn.
    + intros y Hy Hnamed. rewrite HuS. by apply Hsole_s.
Qed.

(** ** Notes and annotations as single elements *)

Lemma str_truthy_false s : str_truthy s = false ↔ s = "".
Proof. unfold str_truthy. by case_decide. Qed.

Lemma str_truthy_true s : str_truthy s = true ↔ s ≠ "".
Proof. unfold str_truthy. by case_decide. Qed.

Lemma string_app_empty_r (s : string) : s +:+ "" = s.
Proof.
  induction s as [|c s IH]; [done|].
  change (String c s +:+ "") with (String c (s +:+ "")). by rewrite IH.
Qed.

Lemma get_set_attribute e k v k' :
  get_attribute (set_attribute e k v) k'
  = if decide (k = k') then v else get_attribute e k'.
Proof.
  destruct e as [u t a ks]. unfold get_attribute. simpl.
  destruct v as [x|]; case_decide; subst.
  - apply lookup_insert_eq.
  - by apply lookup_insert_ne.
  - apply lookup_delete_eq.
  - by apply lookup_delete_ne.
Qed.

Lemma kids_of_set_attribute e k v : kids_of (set_attribute e k v) = kids_of e.
Proof. by destruct e. Qed.

Lemma get_element_set_attribute t e k v :
  get_element t (set_attribute e k v) = get_element t e.
Proof. unfold get_element. by rewrite kids_of_set_attribute. Qed.

Lemma text_content_set_text_content e s :
  text_content (set_text_content e s) = s.
Proof. destruct e. simpl. apply string_app_empty_r. Qed.

Lemma find_child_ge t m l k c :
  find_child t m l = Some (k, c) → (m ≤ k)%nat.
Proof.
  revert m. induction l as [|[s|c'] l IH]; intros m Hf; [done|..]; simpl in *.
  - apply IH in Hf. lia.
  - destruct (has_tag t c'); [injection Hf as <- <-; lia|].
    apply IH in Hf. lia.
Qed.

(** An assignment through a child reference that leaves tags alone does
    not move what [get_element] finds. *)
Lemma find_child_alter t f i ks j :
  (∀ c, tag_of (f c) = tag_of c) →
  find_child t j (alter (on_node f) i ks)
  = (λ '(k, c), (k, if decide (k = j + i)%nat then f c else c))
      <$> find_child t j ks.
Proof.
  intros Htag. revert i j.
  induction ks as [|[s|c] ks IH]; intros i j; [done|..].
  - destruct i as [|i]; simpl.
    + destruct (find_child t (S j) ks) as [[k c]|] eqn:Hk; [|done].
      simpl. do 2 f_equal. apply find_child_ge in Hk. case_decide; [lia|done].
    + etrans; [apply (IH i (S j))|].
      destruct (find_child t (S j) ks) as [[k c]|]; [|done].
      simpl. do 2 f_equal. repeat case_decide; try done; lia.
  - destruct i as [|i]; simpl.
    + unfold has_tag at 1. rewrite Htag. fold (has_tag t c).
      destruct (has_tag t c); simpl.
      * do 2 f_equal. case_decide; [done|lia].
      * destruct (find_child t (S j) ks) as [[k c']|] eqn:Hk; [|done].
        simpl. do 2 f_equal. apply find_child_ge in Hk. case_decide; [lia|done].
    + destruct (has_tag t c); simpl.
      * do 2 f_equal. case_decide; [lia|done].
      * etrans; [apply (IH i (S j))|].
        destruct (find_child t (S j) ks) as [[k c']|]; [|done].
        simpl. do 2 f_equal. repeat case_decide; try done; lia.
Qed.

Lemma get_element_with_child t f i b e :
  (∀ c, tag_of (f c) = tag_of c) →
  get_element t e = Some (i, b) →
  get_element t (with_child i f e) = Some (i, f b).
Proof.
  intros Htag Hget. destruct e as [u tg a ks]. unfold get_element in *.
  simpl in *. rewrite find_child_alter, Hget by done. simpl.
  by rewrite decide_True.
Qed.

Lemma get_element_with_child_is_Some t f i e :
  (∀ c, tag_of (f c) = tag_of c) →
  is_Some (get_element t (with_child i f e)) ↔ is_Some (get_element t e).
Proof.
  intros Htag. destruct e as [u tg a ks]. unfold get_element. simpl.
  rewrite find_child_alter by done. apply fmap_is_Some.
Qed.

Lemma Note_init_subregions u note_class note_id citation body note :
  Note_init u note_class note_id citation body = Return note →
  is_Some (get_element "text:note-citation" note) ∧
  is_Some (get_element "text:note-body" note).
Proof.
  unfold Note_init.
  set (n0 := insert_child _ _ _).
  set (n1 := match note_id with Some i => _ | None => _ end).
  assert (get_element "text:note-citation" n1
            = Some (0%nat, from_tag (u + 2) "text:note-citation") ∧
          get_element "text:note-body" n1
            = Some (1%nat, from_tag (u + 1) "text:note-body")) as [Hc Hb].
  { unfold n1. destruct note_id; rewrite ?get_element_set_attribute; done. }
  assert (∀ n, is_Some (get_element "text:note-citation" n) →
               is_Some (get_element "text:note-body" n) →
               ∀ v r, Note_set_note_body n v = Return r →
               is_Some (get_element "text:note-citation" r) ∧
               is_Some (get_element "text:note-body" r)) as Hset.
  { intros n Hnc [[i b] Hnb] v r. unfold Note_set_note_body. rewrite Hnb.
    destruct v; try done; intros [= <-];
      rewrite !get_element_with_child_is_Some;
      try (by intros []); by rewrite ?Hnb. }
  destruct citation as [c|]; simpl.
  - unfold Note_set_citation. rewrite Hc. simpl.
    set (n2 := with_child _ _ _).
    assert (is_Some (get_element "text:note-citation" n2) ∧
            is_Some (get_element "text:note-body" n2)) as [Hc2 Hb2].
    { unfold n2. rewrite !get_element_with_child_is_Some;
        [by rewrite Hc, Hb|by intros [? ? ? [|[]]]..]. }
    destruct body; try (by apply Hset); by intros [= <-].
  - destruct body; try (apply Hset; by rewrite ?Hc, ?Hb).
    intros [= <-]. by rewrite Hc, Hb.
Qed.

(** What [check_validity] looks at, for a note that has its two
    sub-regions: it raises exactly when the class, the id or the citation
    is empty; the class is not compared with the two known classes, and
    an empty body passes. *)
Lemma Note_check_validity_raises note :
  is_Some (get_element "text:note-citation" note) →
  is_Some (get_element "text:note-body" note) →
  (raises (Note_check_validity note) ↔
     opt_truthy (get_attribute note "text:note-class") = false ∨
     opt_truthy (get_attribute note "text:id") = false ∨
     Note_citation note = Return "") ∧
  (¬ raises (Note_check_validity note) → Note_check_validity note = Return ()).
Proof.
  intros [[i c] Hc] [[j b] Hb]. unfold Note_check_validity, Note_citation,
    Note_note_body, raises. rewrite Hc, Hb. simpl.
  destruct (opt_truthy (get_attribute note "text:note-class")); simpl;
    [|split; [split; eauto|intros []; eauto]].
  destruct (opt_truthy (get_attribute note "text:id")); simpl;
    [|split; [split; eauto|intros []; eauto]].
  destruct (str_truthy (get_text c)) eqn:Hcit; simpl.
  - split.
    + split.
      * intros [e He]. by destruct (str_truthy (text_content b)).
      * intros [|[|[= Heq]]]; [done..|]. apply str_truthy_false in Heq.
        congruence.
    + intros _. by destruct (str_truthy (text_content b)).
  - apply str_truthy_false in Hcit.
    split; [split; [|by eexists]|intros []; eauto].
    intros _. right. right. by rewrite Hcit.
Qed.

(** C7: [check_validity] accepts a note whose class is not empty, whatever
    the class is: a note of class [cls] with id [n1], citation [1] and an
    empty body passes for every non-empty [cls], recognised or not. *)
Theorem Note_check_validity_accepts_any_class (u : nat) (cls : string) :
  cls ≠ "" →
  (note ← Note_init u (Some cls) (Some "n1") (Some "1") PNone;
   Note_check_validity note) = Return ().
Proof.
  intros Hcls. unfold Note_init, Note_set_citation. simpl.
  unfold Note_check_validity, get_attribute. simpl.
  rewrite lookup_insert_ne by done. rewrite lookup_insert_eq. simpl.
  unfold str_truthy at 1. case_decide; [done|]. simpl.
  rewrite lookup_insert_eq. reflexivity.
Qed.

(** C8: validation of an annotation raises exactly when its body or its
    creator is empty.  Otherwise it returns; an annotation without a date
    comes back with the current time as its date and is otherwise
    untouched, one with a date comes back as it was. *)
Theorem Annotation_check_validity_spec (now : datetime) (self : Element) :
  (Annotation_note_body self = "" →
     Annotation_check_validity now self
       = Raise (ValueError "annotation must have a body")) ∧
  (Annotation_note_body self ≠ "" → opt_truthy (dc_creator self) = false →
     Annotation_check_validity now self
       = Raise (ValueError "annotation must have a creator")) ∧
  (raises (Annotation_check_validity now self) ↔
     Annotation_note_body self = "" ∨ opt_truthy (dc_creator self) = false) ∧
  (Annotation_note_body self ≠ "" → opt_truthy (dc_creator self) = true →
     match dc_date self with
     | None =>
         Annotation_check_validity now self = Return (set_dc_date self now)
     | Some _ => Annotation_check_validity now self = Return self
     end) ∧
  (∀ self', Annotation_check_validity now self = Return self' →
     dc_date self' = Some (default now (dc_date self)) ∧
     (∀ k, k ≠ "dc:date" → get_attribute self' k = get_attribute self k) ∧
     uid_of self' = uid_of self ∧ tag_of self' = tag_of self ∧
     kids_of self' = kids_of self).
Proof.
  unfold Annotation_check_validity, raises.
  destruct (str_truthy (Annotation_note_body self)) eqn:Hbody; simpl.
  - apply str_truthy_true in Hbody.
    destruct (opt_truthy (dc_creator self)) eqn:Hcreator; simpl.
    + split_and!; [done|done| |by destruct (dc_date self)|].
      * split; [by destruct (dc_date self); intros [? ?]|by intros [|]].
      * intros self'.
        destruct (dc_date self) as [d|] eqn:Hdate; intros [= <-]; [done|].
        split_and!; [|intros k Hk|by destruct self..].
        -- unfold dc_date, set_dc_date.
           by rewrite get_set_attribute, decide_True.
        -- unfold set_dc_date. by rewrite get_set_attribute, decide_False.
    + split_and!; [done|done| |done|done].
      split; [by right|by eexists].
  - apply str_truthy_false in Hbody.
    split_and!; [done|done| |done|done].
    split; [by left|by eexists].
Qed.

(** C9: on a note that has its body sub-region, writing plain text [T] to
    the body and reading the body back gives [T]; a value that is neither
    plain text nor an element makes the setter raise [ValueError]. *)
Theorem Note_note_body_roundtrip (note : Element) :
  (∀ T, is_Some (get_element "text:note-body" note) →
     (note' ← Note_set_note_body note (PStr T); Note_note_body note')
     = Return T) ∧
  (∀ v, is_content v = false →
     Note_set_note_body note v
     = Raise (ValueError ("Unexpected type for body: " +:+ dquote +:+
                          type_repr v +:+ dquote))).
Proof.
  split.
  - intros T [[i b] Hb]. unfold Note_set_note_body. rewrite Hb. simpl.
    unfold Note_note_body.
    rewrite (get_element_with_child _ _ i b); [|by intros []|done].
    by rewrite text_content_set_text_content.
  - intros v Hv. by destruct v.
Qed.

Lemma Annotation_set_note_body_name self v self' :
  Annotation_set_note_body self v = Return self' →
  get_attribute self' "office:name" = get_attribute self "office:name".
Proof. destruct self, v; simpl; try done; by intros [= <-]. Qed.

(** C10: a non-empty [name] handed to the [Annotation] constructor is not
    stored: the constructed annotation has no [office:name].  A name is
    assigned only when the argument is falsy, and it is then the one
    [get_unique_office_name] returns. *)
Theorem Annotation_init_name_only_autogenerated
    (fuel u : nat) (text_or_element : pyval) (creator : option string)
    (date : option datetime) (name : option string) (parent : option ref)
    (now : datetime) :
  let made :=
    Annotation_init fuel u text_or_element creator date name parent now in
  (is_content text_or_element = false →
     made = Raise (TypeError "expected unicode or Element")) ∧
  (is_content text_or_element = true → opt_truthy name = true →
     ∃ self, made = Return self ∧ get_attribute self "office:name" = None) ∧
  (is_content text_or_element = true → opt_truthy name = false →
   (length (scope_used_names parent ++ local_used_names parent) < fuel)%nat →
     ∃ self auto, made = Return self ∧
       get_unique_office_name fuel parent = Return auto ∧
       get_attribute self "office:name" = Some auto).
Proof.
  intros made. subst made. unfold Annotation_init. split_and!.
  - intros Hv. by destruct text_or_element.
  - intros Hv Hname. rewrite Hname. simpl.
    destruct (Annotation_set_note_body (from_tag u "office:annotation")
                text_or_element) as [self0| |] eqn:Hset;
      [|by destruct text_or_element..].
    simpl. eexists. split; [done|].
    unfold set_dc_date. rewrite get_set_attribute, decide_False by done.
    apply Annotation_set_note_body_name in Hset.
    destruct creator as [c|]; [destruct (str_truthy c)|]; try done.
    unfold set_dc_creator. by rewrite get_set_attribute, decide_False.
  - intros Hv Hname Hfuel. rewrite Hname. simpl.
    destruct (Annotation_set_note_body (from_tag u "office:annotation")
                text_or_element) as [self0| |] eqn:Hset;
      [|by destruct text_or_element..].
    simpl.
    destruct (office_name_loop_first_free _ _ Hfuel) as (k & _ & Hrun & _).
    rewrite get_unique_office_name_unfold, Hrun. simpl.
    eexists _, _. split_and!; [done..|].
    by rewrite get_set_attribute, decide_True.
Qed.

(** ** Further properties of the allocator *)

(** The loop only asks whether the candidates from its counter on are in
    use. *)
Lemma office_name_loop_ext fuel i used used' :
  (∀ k, i ≤ k → fieldmark_name k ∈ used ↔ fieldmark_name k ∈ used') →
  office_name_loop fuel i used = office_name_loop fuel i used'.
Proof.
  revert i. induction fuel as [|fuel IH]; intros i Hsame; [done|]. simpl.
  rewrite (bool_decide_ext _ _ (Hsame i (Z.le_refl i))).
  case_bool_decide; [|done]. apply IH. intros k Hk. apply Hsame. lia.
Qed.

Lemma office_name_loop_upper fuel i used k :
  office_name_loop fuel i used = Some (fieldmark_name k) →
  k < i + Z.of_nat fuel.
Proof.
  revert i. induction fuel as [|fuel IH]; intros i Hrun; [done|].
  simpl in Hrun. case_bool_decide.
  - apply IH in Hrun. lia.
  - apply (inj Some), fieldmark_name_inj in Hrun. lia.
Qed.

Lemma office_name_loop_subseteq fuel i used used' k' :
  used ⊆ used' →
  office_name_loop fuel i used' = Some (fieldmark_name k') →
  ∃ k, office_name_loop fuel i used = Some (fieldmark_name k) ∧ k ≤ k'.
Proof.
  intros Hsub. revert i. induction fuel as [|fuel IH]; intros i Hrun; [done|].
  pose proof (office_name_loop_Some _ _ _ _ Hrun) as (j & Hj & Heq & _).
  apply fieldmark_name_inj in Heq. subst j.
  simpl in Hrun |- *.
  destruct (decide (fieldmark_name i ∈ used)) as [Hin|Hin].
  - rewrite bool_decide_eq_true_2 by done.
    rewrite bool_decide_eq_true_2 in Hrun by (by apply Hsub). by apply IH.
  - rewrite bool_decide_eq_false_2 by done. exists i. by split.
Qed.

(** X1: the counter of the returned name is at most one more than the
    number of names in use. *)
Theorem get_unique_office_name_bound (fuel : nat) (element : option ref) :
  let used := scope_used_names element ++ local_used_names element in
  (length used < fuel)%nat →
  ∃ k, 1 ≤ k ∧ k ≤ Z.of_nat (length used) + 1 ∧
       get_unique_office_name fuel element = Return (fieldmark_name k).
Proof.
  intros used Hfuel.
  destruct (office_name_loop_first_free (S (length used)) used)
    as (k & Hk & Hrun & _); [lia|].
  exists k. split_and!; [done| |].
  - apply office_name_loop_upper in Hrun. lia.
  - rewrite get_unique_office_name_unfold. fold used.
    rewrite (office_name_loop_mono _ fuel _ _ _ Hrun); [done|lia].
Qed.

(** X2: the result depends only on which of the names
    [__Fieldmark__lpod_1], [__Fieldmark__lpod_2], ... are in use: order,
    repetitions and names of any other form make no difference. *)
Theorem get_unique_office_name_same_members
    (fuel : nat) (element element' : option ref) :
  (∀ k, 1 ≤ k →
     fieldmark_name k ∈ scope_used_names element ++ local_used_names element
     ↔ fieldmark_name k
         ∈ scope_used_names element' ++ local_used_names element') →
  get_unique_office_name fuel element = get_unique_office_name fuel element'.
Proof.
  intros Hsame. rewrite !get_unique_office_name_unfold.
  by rewrite (office_name_loop_ext _ _ _ _ Hsame).
Qed.

(** X3: more names in use never give a smaller counter. *)
Theorem get_unique_office_name_monotone
    (fuel : nat) (element element' : option ref) :
  scope_used_names element ++ local_used_names element
    ⊆ scope_used_names element' ++ local_used_names element' →
  (length (scope_used_names element' ++ local_used_names element') < fuel)%nat →
  ∃ k k', get_unique_office_name fuel element = Return (fieldmark_name k) ∧
          get_unique_office_name fuel element' = Return (fieldmark_name k') ∧
          k ≤ k'.
Proof.
  intros Hsub Hfuel.
  destruct (office_name_loop_first_free _ _ Hfuel) as (k' & _ & Hrun' & _).
  destruct (office_name_loop_subseteq _ _ _ _ _ Hsub Hrun') as (k & Hrun & Hle).
  exists k, k'. rewrite !get_unique_office_name_unfold, Hrun, Hrun'. done.
Qed.

Lemma elem_of_get_office_names n r :
  n ∈ get_office_names r ↔
  ∃ e x, deref r = Some e ∧ x ∈ elements e ∧
         get_attribute x "office:name" = Some n.
Proof.
  unfold get_office_names. destruct (deref r) as [e|]; split.
  - intros (x & Hx & Hn)%list_elem_of_omap. by exists e, x.
  - intros (e' & x & [= <-] & Hx & Hn). apply list_elem_of_omap. by exists x.
  - by intros ?%elem_of_nil.
  - by intros (e' & x & [=] & _).
Qed.

Lemma document_body_governing r b :
  document_body r = Some b → governing_scope r = Some b.
Proof. unfold governing_scope. by intros ->. Qed.

(** X4: for an element that lies below a document body the element's own
    names add nothing: the allocator returns what it returns for the
    names of the body alone. *)
Theorem get_unique_office_name_attached (fuel : nat) (el body : ref) :
  wf (tree el) → document_body el = Some body →
  get_unique_office_name fuel (Some el)
  = match office_name_loop fuel 1 (get_office_names body) with
    | Some name => Return name
    | None => OutOfFuel
    end.
Proof.
  intros Hwf Hbody. unfold get_unique_office_name. rewrite Hbody.
  rewrite (office_name_loop_ext fuel 1 _ (get_office_names body)); [done|].
  intros k _. rewrite elem_of_app. split; [|by left].
  intros [Hin|Hin]; [done|].
  apply elem_of_get_office_names in Hin as (e & x & He & Hx & Hn).
  destruct el as [t u]. simpl in *.
  destruct (governing_scope_below t u e body Hwf He
              (document_body_governing _ _ Hbody)) as (B & HB & _ & HeB).
  apply elem_of_get_office_names. exists B, x. split_and!; [done| |done].
  eapply elements_trans; [done|]. by apply descendants_elements.
Qed.

(** ** Further properties of notes *)

Lemma find_child_lookup t j ks k c :
  find_child t j ks = Some (k, c) →
  (j ≤ k)%nat ∧ ks !! (k - j)%nat = Some (E c) ∧ tag_of c = t.
Proof.
  revert j. induction ks as [|[s|c'] ks IH]; intros j Hf; [done|..];
    simpl in Hf.
  - destruct (IH _ Hf) as (Hle & Hlook & Htag). split_and!; [lia| |done].
    by replace (k - j)%nat with (S (k - S j)) by lia.
  - unfold has_tag in Hf. case_bool_decide as Htag.
    + injection Hf as <- <-. split_and!; [lia| |done].
      by rewrite Nat.sub_diag.
    + destruct (IH _ Hf) as (Hle & Hlook & Htag'). split_and!; [lia| |done].
      by replace (k - j)%nat with (S (k - S j)) by lia.
Qed.

(** An assignment through the reference to one region does not touch
    what [get_element] finds for another tag. *)
Lemma get_element_with_child_other t t' f i ci e :
  (∀ c, tag_of (f c) = tag_of c) → t ≠ t' →
  get_element t e = Some (i, ci) →
  get_element t' (with_child i f e) = get_element t' e.
Proof.
  intros Hf Hne Hget. destruct e as [u tg a ks]. unfold get_element in *.
  simpl in *. rewrite find_child_alter by done.
  destruct (find_child t' 0 ks) as [[k c]|] eqn:Hother; [|done]. simpl.
  rewrite decide_False; [done|]. intros ->.
  apply find_child_lookup in Hget as (_ & Hi & Hti).
  apply find_child_lookup in Hother as (_ & Hk & Htk).
  rewrite Hi in Hk. injection Hk as ->. congruence.
Qed.

Lemma attrs_of_with_child i f e : attrs_of (with_child i f e) = attrs_of e.
Proof. by destruct e. Qed.

Lemma uid_of_with_child i f e : uid_of (with_child i f e) = uid_of e.
Proof. by destruct e. Qed.

Lemma get_text_set_text c s : get_text (set_text c s) = s.
Proof. by destruct c as [u t a [|[s'|c'] ks]]. Qed.

Lemma tag_of_set_text c s : tag_of (set_text c s) = tag_of c.
Proof. by destruct c as [u t a [|[s'|c'] ks]]. Qed.

Lemma text_content_append_clear b el :
  text_content (append_child (clear b) el) = text_content el.
Proof. destruct b. simpl. apply string_app_empty_r. Qed.

(** X5: writing the citation and reading it back gives the text written;
    the body, the attributes and the identity of the note stay as they
    were. *)
Theorem Note_citation_roundtrip (note : Element) (text : string) :
  is_Some (get_element "text:note-citation" note) →
  ∃ note', Note_set_citation note text = Return note' ∧
    Note_citation note' = Return text ∧
    Note_note_body note' = Note_note_body note ∧
    attrs_of note' = attrs_of note ∧ uid_of note' = uid_of note ∧
    tag_of note' = tag_of note.
Proof.
  intros [[i c] Hc]. unfold Note_set_citation. rewrite Hc.
  eexists. split; [done|]. split_and!.
  - unfold Note_citation.
    rewrite (get_element_with_child _ _ i c);
      [|intros; apply tag_of_set_text|done].
    by rewrite get_text_set_text.
  - unfold Note_note_body.
    by rewrite (get_element_with_child_other "text:note-citation" _ _ i c);
      [|intros; apply tag_of_set_text|..].
  - apply attrs_of_with_child.
  - apply uid_of_with_child.
  - by destruct note.
Qed.

(** X6: writing plain text or an element to the body of a note makes the
    body read as that text, or as the flattened text of that element;
    the citation, the attributes and the identity of the note stay as
    they were. *)
Theorem Note_set_note_body_frame (note : Element) (v : pyval) :
  is_Some (get_element "text:note-body" note) → is_content v = true →
  ∃ note', Note_set_note_body note v = Return note' ∧
    Note_note_body note' = Return (content_text v) ∧
    Note_citation note' = Note_citation note ∧
    attrs_of note' = attrs_of note ∧ uid_of note' = uid_of note ∧
    tag_of note' = tag_of note.
Proof.
  intros [[i b] Hb] Hv. unfold Note_set_note_body. rewrite Hb.
  destruct v as [|s|s|n|el|l]; try done; simpl;
    (eexists; split; [done|]); split_and!;
    try apply attrs_of_with_child; try apply uid_of_with_child;
    try (by destruct note).
  all: unfold Note_note_body, Note_citation.
  all: try (rewrite (get_element_with_child _ _ i b);
              [|by intros []|done]).
  all: try (rewrite (get_element_with_child_other "text:note-body" _ _ i b);
              [done|by intros []|done|done]).
  - by rewrite text_content_set_text_content.
  - by rewrite text_content_set_text_content.
  - by rewrite text_content_append_clear.
Qed.

Lemma note_regions note c b :
  kids_of note = [E c; E b] →
  tag_of c = "text:note-citation" → tag_of b = "text:note-body" →
  Note_citation note = Return (get_text c) ∧
  Note_note_body note = Return (text_content b).
Proof.
  intros Hkids Hc Hb.
  unfold Note_citation, Note_note_body, get_element. rewrite Hkids. simpl.
  unfold has_tag. rewrite Hc, Hb. done.
Qed.

Lemma Note_init_facts
    (u : nat) (note_class note_id citation : option string) (body : pyval) :
  is_none_or_content body = true →
  ∃ note c b,
    Note_init u note_class note_id citation body = Return note ∧
    uid_of note = u ∧ tag_of note = "text:note" ∧
    kids_of note = [E c; E b] ∧
    uid_of c = (u + 2)%nat ∧ tag_of c = "text:note-citation" ∧
    uid_of b = (u + 1)%nat ∧ tag_of b = "text:note-body" ∧
    get_attribute note "text:note-class" = note_class ∧
    get_attribute note "text:id" = note_id ∧
    get_text c = default "" citation ∧
    text_content b = content_text body.
Proof.
  intros Hbody.
  destruct body as [|s|s|n|el|l]; try done;
    destruct note_class as [cls|], note_id as [id|], citation as [cit|];
    (eexists _, _, _; split; [reflexivity|]);
    split_and!; try reflexivity;
    simpl; rewrite ?string_app_empty_r; try reflexivity;
    unfold get_attribute; simpl;
    rewrite ?lookup_insert_eq; try done;
    rewrite ?lookup_insert_ne by done;
    rewrite ?lookup_insert_eq, ?lookup_delete_eq, ?lookup_empty; done.
Qed.

(** X7: the constructor puts the citation region first and the body
    region second, each a new element, stores the class and the id as
    given (an id of [None] leaves the attribute unset), and fills the two
    regions with the citation and the body; it does so for a body that is
    [None], plain text or an element. *)
Theorem Note_init_shape
    (u : nat) (note_class note_id citation : option string) (body : pyval) :
  is_none_or_content body = true →
  ∃ note c b,
    Note_init u note_class note_id citation body = Return note ∧
    uid_of note = u ∧ tag_of note = "text:note" ∧
    kids_of note = [E c; E b] ∧
    uid_of c = (u + 2)%nat ∧ tag_of c = "text:note-citation" ∧
    uid_of b = (u + 1)%nat ∧ tag_of b = "text:note-body" ∧
    get_attribute note "text:note-class" = note_class ∧
    get_attribute note "text:id" = note_id ∧
    get_text c = default "" citation ∧
    text_content b = content_text body.
Proof. apply Note_init_facts. Qed.

(** X8: the constructor rejects a body that is neither [None], plain text
    nor an element with the [ValueError] of the body setter, whatever the
    other arguments are. *)
Theorem Note_init_rejects_body
    (u : nat) (note_class note_id citation : option string) (body : pyval) :
  is_none_or_content body = false →
  Note_init u note_class note_id citation body
  = Raise (ValueError ("Unexpected type for body: " +:+ dquote +:+
                       type_repr body +:+ dquote)).
Proof.
  intros Hbody.
  destruct body as [|s|s|n|el|l]; try done;
    by destruct note_class, note_id, citation.
Qed.

(** X9: a note validated right after its construction is judged by the
    constructor's arguments: the class is looked at first, then the id,
    then the citation, each failing when it is [None] or empty; the body
    plays no part. *)
Theorem Note_init_check_validity
    (u : nat) (note_class note_id citation : option string) (body : pyval) :
  is_none_or_content body = true →
  (note ← Note_init u note_class note_id citation body;
   Note_check_validity note)
  = if negb (opt_truthy note_class) then
      Raise (ValueError ("note class must be " +:+ dquote +:+ "footnote" +:+
                         dquote +:+ " or " +:+ dquote +:+ "endnote" +:+
                         dquote))
    else if negb (opt_truthy note_id) then
      Raise (ValueError "notes must have an id")
    else if negb (opt_truthy citation) then
      Raise (ValueError "notes must have a citation")
    else Return ().
Proof.
  intros Hbody.
  destruct (Note_init_facts u note_class note_id citation body Hbody)
    as (note & c & b & -> & _ & _ & Hkids & _ & Hc & _ & Hb & Hcls & Hid
        & Hcit & _).
  destruct (note_regions note c b Hkids Hc Hb) as [Hrc Hrb].
  simpl. unfold Note_check_validity. rewrite Hcls, Hid, Hrc, Hrb, Hcit. simpl.
  destruct (opt_truthy note_class); simpl; [|done].
  destruct (opt_truthy note_id); simpl; [|done].
  destruct citation as [cit|]; simpl.
  - destruct (str_truthy cit); simpl; [|done].
    by destruct (str_truthy (text_content b)).
  - done.
Qed.

(** X10: validation reads both regions.  On a note whose class and id are
    set, a missing citation region is an [AttributeError]; with a
    non-empty citation, a missing body region is an [AttributeError] too,
    although an empty body region passes. *)
Theorem Note_check_validity_missing_region (note : Element) :
  opt_truthy (get_attribute note "text:note-class") = true →
  opt_truthy (get_attribute note "text:id") = true →
  (get_element "text:note-citation" note = None →
     Note_check_validity note
     = Raise (AttributeError "'NoneType' object has no attribute 'text'")) ∧
  (∀ i c, get_element "text:note-citation" note = Some (i, c) →
     get_text c ≠ "" → get_element "text:note-body" note = None →
     Note_check_validity note
     = Raise (AttributeError
                "'NoneType' object has no attribute 'text_content'")).
Proof.
  intros Hcls Hid. unfold Note_check_validity, Note_citation, Note_note_body.
  rewrite Hcls, Hid. simpl. split.
  - by intros ->.
  - intros i c -> Htext ->. simpl.
    apply str_truthy_true in Htext. by rewrite Htext.
Qed.

(** ** Further properties of annotations *)

Lemma text_content_set_attribute e k v :
  text_content (set_attribute e k v) = text_content e.
Proof. by destruct e. Qed.

Lemma uid_of_set_attribute e k v : uid_of (set_attribute e k v) = uid_of e.
Proof. by destruct e. Qed.

Lemma tag_of_set_attribute e k v : tag_of (set_attribute e k v) = tag_of e.
Proof. by destruct e. Qed.

Lemma Annotation_set_note_body_Return self v :
  is_content v = true →
  ∃ self', Annotation_set_note_body self v = Return self' ∧
    text_content self' = content_text v ∧
    uid_of self' = uid_of self ∧ tag_of self' = tag_of self ∧
    attrs_of self' = attrs_of self.
Proof.
  intros Hv. destruct self as [u t a ks].
  destruct v as [|s|s|n|el|l]; try done; simpl;
    (eexists; split; [done|]); split_and!; try done;
    simpl; apply string_app_empty_r.
Qed.

(** X11: writing plain text or an element to the body of an annotation
    makes the body read as that text, or as the flattened text of that
    element, and keeps the identity and the tag; any other value,
    [None] included, raises [TypeError]. *)
Theorem Annotation_note_body_roundtrip (self : Element) (v : pyval) :
  (is_content v = true →
     ∃ self', Annotation_set_note_body self v = Return self' ∧
       Annotation_note_body self' = content_text v ∧
       uid_of self' = uid_of self ∧ tag_of self' = tag_of self) ∧
  (is_content v = false →
     Annotation_set_note_body self v
     = Raise (TypeError "expected unicode or Element")).
Proof.
  split.
  - intros Hv.
    destruct (Annotation_set_note_body_Return self v Hv)
      as (self' & Hset & Htext & Hu & Ht & _).
    by exists self'.
  - intros Hv. by destruct v.
Qed.

Lemma Annotation_init_facts
    (fuel u : nat) (text_or_element : pyval) (creator : option string)
    (date : option datetime) (name : option string) (parent : option ref)
    (now : datetime) :
  is_content text_or_element = true →
  opt_truthy name = true ∨
    (length (scope_used_names parent ++ local_used_names parent) < fuel)%nat →
  ∃ self,
    Annotation_init fuel u text_or_element creator date name parent now
      = Return self ∧
    uid_of self = u ∧ tag_of self = "office:annotation" ∧
    Annotation_note_body self = content_text text_or_element ∧
    dc_creator self = (if opt_truthy creator then creator else None) ∧
    dc_date self = Some (default now date) ∧
    (opt_truthy name = true → get_attribute self "office:name" = None).
Proof.
  intros Hv Hname. unfold Annotation_init.
  destruct (Annotation_set_note_body_Return
              (from_tag u "office:annotation") text_or_element Hv)
    as (self0 & -> & Htext & Hu & Ht & Ha).
  simpl.
  set (self1 := match creator with
                | Some c => if str_truthy c then set_dc_creator self0 c
                            else self0
                | None => self0
                end).
  assert (text_content self1 = content_text text_or_element ∧
          uid_of self1 = u ∧ tag_of self1 = "office:annotation" ∧
          dc_creator self1 = (if opt_truthy creator then creator else None) ∧
          get_attribute self1 "office:name" = None) as (H1 & H2 & H3 & H4 & H5).
  { assert (∀ k, get_attribute self0 k = None) as Hnone.
    { intros k. unfold get_attribute. by rewrite Ha. }
    unfold self1, dc_creator.
    destruct creator as [c|]; simpl; [destruct (str_truthy c) eqn:Hc|].
    - unfold set_dc_creator.
      rewrite text_content_set_attribute, uid_of_set_attribute,
        tag_of_set_attribute, !get_set_attribute.
      rewrite decide_True, decide_False by done. by split_and!.
    - by split_and!.
    - by split_and!. }
  clearbody self1.
  set (self2 := set_dc_date self1 (match date with
                                   | Some d => d
                                   | None => now
                                   end)).
  assert (text_content self2 = content_text text_or_element ∧
          uid_of self2 = u ∧ tag_of self2 = "office:annotation" ∧
          dc_creator self2 = (if opt_truthy creator then creator else None) ∧
          dc_date self2 = Some (default now date) ∧
          get_attribute self2 "office:name" = None)
    as (G1 & G2 & G3 & G4 & G5 & G6).
  { unfold self2, set_dc_date, dc_creator, dc_date.
    rewrite text_content_set_attribute, uid_of_set_attribute,
      tag_of_set_attribute, !get_set_attribute.
    rewrite decide_False, decide_True, decide_False by done.
    split_and!; try done; by destruct date. }
  clearbody self2.
  destruct (opt_truthy name) eqn:Hn; simpl.
  - eexists. split; [done|]. by split_and!.
  - destruct Hname as [|Hfuel]; [done|].
    destruct (office_name_loop_first_free _ _ Hfuel) as (k & _ & Hrun & _).
    rewrite get_unique_office_name_unfold, Hrun. simpl.
    eexists. split; [done|].
    unfold Annotation_note_body, dc_creator, dc_date in *.
    rewrite text_content_set_attribute, uid_of_set_attribute,
      tag_of_set_attribute, !get_set_attribute.
    rewrite !decide_False by done. by split_and!.
Qed.

(** X12: an annotation the constructor returns has the identity and the
    tag of a new annotation, reads back the body it was given, carries
    the creator only when one was given and is not empty, and carries
    the [date] argument, or the current time when that is [None]. *)
Theorem Annotation_init_shape
    (fuel u : nat) (text_or_element : pyval) (creator : option string)
    (date : option datetime) (name : option string) (parent : option ref)
    (now : datetime) :
  is_content text_or_element = true →
  opt_truthy name = true ∨
    (length (scope_used_names parent ++ local_used_names parent) < fuel)%nat →
  ∃ self,
    Annotation_init fuel u text_or_element creator date name parent now
      = Return self ∧
    uid_of self = u ∧ tag_of self = "office:annotation" ∧
    Annotation_note_body self = content_text text_or_element ∧
    dc_creator self = (if opt_truthy creator then creator else None) ∧
    dc_date self = Some (default now date).
Proof.
  intros Hv Hname.
  destruct (Annotation_init_facts fuel u text_or_element creator date name
              parent now Hv Hname) as (self & H & ? & ? & ? & ? & ? & _).
  by exists self.
Qed.

(** X13: validating an annotation right after its construction never
    changes it, whatever the time of the validation is: the constructor
    has always set a date.  The validation fails exactly when the body
    given is empty text or flattens to the empty text, or the creator is
    [None] or empty. *)
Theorem Annotation_init_check_validity
    (fuel u : nat) (text_or_element : pyval) (creator : option string)
    (date : option datetime) (name : option string) (parent : option ref)
    (now later : datetime) :
  is_content text_or_element = true →
  opt_truthy name = true ∨
    (length (scope_used_names parent ++ local_used_names parent) < fuel)%nat →
  let made :=
    Annotation_init fuel u text_or_element creator date name parent now in
  (self ← made; Annotation_check_validity later self)
  = if negb (str_truthy (content_text text_or_element)) then
      Raise (ValueError "annotation must have a body")
    else if negb (opt_truthy creator) then
      Raise (ValueError "annotation must have a creator")
    else made.
Proof.
  intros Hv Hname made. subst made.
  destruct (Annotation_init_facts fuel u text_or_element creator date name
              parent now Hv Hname)
    as (self & -> & _ & _ & Hbody & Hcreator & Hdate & _).
  simpl. unfold Annotation_check_validity.
  rewrite Hbody, Hcreator, Hdate.
  destruct (str_truthy (content_text text_or_element)); simpl; [|done].
  by destruct (opt_truthy creator) eqn:Hc; simpl; rewrite ?Hc.
Qed.

Lemma deref_root a : deref (Ref a (uid_of a)) = Some a.
Proof.
  unfold deref. simpl. rewrite elements_descendants. simpl.
  unfold has_uid. by rewrite decide_True by (by apply bool_decide_eq_true).
Qed.

(** X14: an end marker built from an annotation takes the annotation's
    name and ignores the [name] argument; when the annotation has no
    name the constructor raises even if a usable [name] was passed.  So
    no end marker can be built from an annotation that was constructed
    with an explicit name. *)
Theorem AnnotationEnd_init_from_annotation
    (fuel u u' : nat) (text_or_element : pyval) (creator : option string)
    (date : option datetime) (name nm : option string) (parent : option ref)
    (now : datetime) :
  (∀ r, AnnotationEnd_init u' (Some r) nm
        = AnnotationEnd_init u' (Some r) None) ∧
  (∀ r, opt_truthy (name_of r) = false →
     AnnotationEnd_init u' (Some r) nm
     = Raise (ValueError "Annotation-end must have a name")) ∧
  (is_content text_or_element = true → opt_truthy name = true →
     ∃ a, Annotation_init fuel u text_or_element creator date name parent now
            = Return a ∧
          AnnotationEnd_init u' (Some (Ref a (uid_of a))) nm
          = Raise (ValueError "Annotation-end must have a name")).
Proof.
  split_and!.
  - done.
  - intros r Hr. unfold AnnotationEnd_init. by rewrite Hr.
  - intros Hv Hname.
    destruct (Annotation_init_facts fuel u text_or_element creator date name
                parent now Hv (or_introl Hname))
      as (a & Ha & _ & _ & _ & _ & _ & Hnone).
    exists a. split; [done|].
    unfold AnnotationEnd_init, name_of. rewrite deref_root. simpl.
    by rewrite (Hnone Hname).
Qed.

(** ** Further properties of extraction and deletion *)


Lemma Annotation_end_tree self end_ :
  Annotation_end self = Return (Some end_) → tree end_ = tree self.
Proof.
  intros Hend.
  destruct (parent self) as [p|] eqn:Hp;
    [|by unfold Annotation_end in Hend; rewrite Hp in Hend].
  destruct (Annotation_end_unfold self p Hp) as (scope & Hscope & _ & Hend' & _).
  rewrite Hend' in Hend. injection Hend as Hlook.
  apply governing_scope_ancestor in Hscope as (up & a & _ & _ & ->).
  by apply lookup_named_Some in Hlook as (SC & i & x & _ & _ & _ & -> & _).
Qed.



Lemma tag_of_prune u e : tag_of (prune u e) = tag_of e.
Proof. by destruct e. Qed.

Lemma attrs_of_prune u e : attrs_of (prune u e) = attrs_of e.
Proof. by destruct e. Qed.

Lemma named_prune t name u e : named t name (prune u e) ↔ named t name e.
Proof.
  unfold named, get_attribute. by rewrite tag_of_prune, attrs_of_prune.
Qed.

(** X17: when the end marker the annotation finds is the only end marker
    of that name in the tree, [delete()] leaves no end marker of that
    name behind. *)
Theorem Annotation_delete_no_dangling_end (self end_ : ref) :
  wf (tree self) →
  Annotation_end self = Return (Some end_) →
  (∀ y, y ∈ elements (tree self) →
        named "office:annotation-end" (name_of self) y →
        uid_of y = node end_) →
  ∃ t', Annotation_delete self None = Return t' ∧
        ∀ x, x ∈ elements t' →
             ¬ named "office:annotation-end" (name_of self) x.
Proof.
  intros Hwf Hend Hsole.
  destruct (Annotation_end_Some _ _ Hwf Hend) as (Htree & Hne & Hroot).
  exists (prune (node self) (prune (node end_) (tree self))). split.
  { unfold Annotation_delete. rewrite Hend. simpl. by rewrite Htree. }
  intros x Hx Hnamed.
  assert (node end_ ∈ uids (prune (node end_) (tree self))) as Hin.
  { apply (prune_uids_subset (node self)). apply elem_of_uids.
    exists x. split; [done|].
    apply elem_of_prune in Hx as (y1 & Hy1 & ->).
    apply elem_of_prune in Hy1 as (y & Hy & ->).
    rewrite !prune_uid. apply Hsole; [done|].
    by apply named_prune, named_prune in Hnamed. }
  by apply (prune_not_in_uids (node end_) (tree self)) in Hin.
Qed.

(** X18: the name returned for an element is carried by no element of the
    element's own subtree and by no element below its document body. *)
Theorem get_unique_office_name_fresh_in_tree (fuel : nat) (el : ref) :
  (length (scope_used_names (Some el) ++ local_used_names (Some el)) < fuel)%nat →
  ∃ name, get_unique_office_name fuel (Some el) = Return name ∧
    (∀ e x, deref el = Some e → x ∈ elements e →
            get_attribute x "office:name" ≠ Some name) ∧
    (∀ b B x, document_body el = Some b → deref b = Some B →
              x ∈ elements B → get_attribute x "office:name" ≠ Some name).
Proof.
  intros Hfuel.
  destruct (office_name_loop_first_free _ _ Hfuel) as (k & _ & Hrun & Hfree & _).
  exists (fieldmark_name k). split_and!.
  - by rewrite get_unique_office_name_unfold, Hrun.
  - intros e x He Hx Hn. apply Hfree, elem_of_app. right.
    apply elem_of_get_office_names. by exists e, x.
  - intros b B x Hb HB Hx Hn. apply Hfree, elem_of_app. left.
    unfold scope_used_names. simpl. rewrite Hb.
    apply elem_of_get_office_names. by exists B, x.
Qed.

(** X19: the partner a marker finds depends only on its governing scope
    and its name: two annotations of the same name below the same scope
    find the same end marker, and two end markers of the same name find
    the same annotation. *)
Theorem partner_lookup_by_scope_and_name (r r' scope : ref) :
  governing_scope r = Some scope → governing_scope r' = Some scope →
  name_of r = name_of r' →
  Annotation_end r = Annotation_end r' ∧
  AnnotationEnd_start r = AnnotationEnd_start r' ∧
  Annotation_end r = Return (get_annotation_end scope (name_of r)).
Proof.
  intros Hs Hs' Hname.
  destruct (governing_scope_parent _ _ Hs) as [p Hp].
  destruct (governing_scope_parent _ _ Hs') as [p' Hp'].
  destruct (Annotation_end_unfold r p Hp) as (sc & Hsc & _ & -> & ->).
  destruct (Annotation_end_unfold r' p' Hp') as (sc' & Hsc' & _ & -> & ->).
  rewrite Hs in Hsc. rewrite Hs' in Hsc'.
  injection Hsc as <-. injection Hsc' as <-. by rewrite Hname.
Qed.

End NotePy.

(** ** The theorems at the sample documents *)

Lemma wf_by_computation (t : Element) :
  bool_decide (NoDup (uids t)) = true → wf t.
Proof. apply bool_decide_eq_true_1. Defined.

(** Side conditions on a concrete document are decided by evaluation. *)
Ltac decide_by_computation :=
  apply (bool_decide_eq_true_1 _); vm_compute; reflexivity.

(** C1, as stated, fails: two calls against the empty used-name set
    return the same name twice. *)
Lemma allocations_fixed_set_repeat :
  scope_used_names is_office_text None ++ local_used_names None = [] ∧
  ∃ names, allocations is_office_text 1 None 2 = Return <$> names ∧
           ¬ NoDup names.
Proof.
  split; [reflexivity|].
  exists ["__Fieldmark__lpod_1"; "__Fieldmark__lpod_1"].
  split; [reflexivity|].
  intros Hnd. apply NoDup_cons in Hnd as [Hnotin _]. apply Hnotin. left.
Qed.

(** C1 (amended) at the paragraph of [doc_point], for three calls. *)
Lemma get_unique_office_name_unique_witness :
  (length (scope_used_names is_office_text (Some (Ref doc_point 1))
           ++ local_used_names (Some (Ref doc_point 1))) + 3 < 6)%nat ∧
  (∃ name, allocations is_office_text 6 (Some (Ref doc_point 1)) 3
             = replicate 3 (Return name)) ∧
  (∃ names, allocations_in_turn 6
              (scope_used_names is_office_text (Some (Ref doc_point 1))
               ++ local_used_names (Some (Ref doc_point 1))) 3
            = Some names ∧ NoDup names).
Proof.
  assert ((length (scope_used_names is_office_text (Some (Ref doc_point 1))
           ++ local_used_names (Some (Ref doc_point 1))) + 3 < 6)%nat) as Hfuel.
  { vm_compute. lia. }
  split; [exact Hfuel|].
  destruct (get_unique_office_name_unique is_office_text 6
              (Some (Ref doc_point 1)) 3 Hfuel)
    as [(name & Hsame & _) (names & Hturn & _ & Hnd & _)].
  split; [by exists name|by exists names].
Defined.

(** C2 with [__Fieldmark__lpod_1] as the only name in use. *)
Lemma get_unique_office_name_first_free_witness :
  (length ([] ++ ["__Fieldmark__lpod_1"]) < 2)%nat ∧
  ∃ k, office_name_loop 2 1 ([] ++ ["__Fieldmark__lpod_1"])
       = Some (fieldmark_name k).
Proof.
  assert ((length (@nil string ++ ["__Fieldmark__lpod_1"]) < 2)%nat) as Hfuel.
  { simpl. lia. }
  split; [exact Hfuel|].
  destruct (get_unique_office_name_first_free is_office_text 2
              [] ["__Fieldmark__lpod_1"] Hfuel) as (k & _ & Hrun & _).
  by exists k.
Defined.

(** The scenario of C2 with the constructor: the first annotation made
    for a paragraph of a document without names is called
    [__Fieldmark__lpod_1]; once it is in the paragraph the next one is
    called [__Fieldmark__lpod_2]. *)
Example first_and_second_annotation :
  Annotation_init is_office_text 1 2 (PStr "review me") (Some "Alice") None
    None (Some (Ref doc_empty 1)) sample_time
  = Return (sample_annotation 2 "__Fieldmark__lpod_1") ∧
  Annotation_init is_office_text 2 3 (PStr "review me") (Some "Alice") None
    None (Some (Ref doc_point 1)) sample_time
  = Return (sample_annotation 3 "__Fieldmark__lpod_2").
Proof. split; reflexivity. Qed.

(** C3 at the point annotation of [doc_point]. *)
Lemma get_annotated_without_partner_witness :
  parent (Ref doc_point 2) = Some (Ref doc_point 1) ∧
  Annotation_get_annotated is_office_text no_extraction (Ref doc_point 2)
    true true true = Return (PStr "") ∧
  Annotation_get_annotated is_office_text no_extraction (Ref doc_point 2)
    false true true = Return PNone.
Proof.
  assert (parent (Ref doc_point 2) = Some (Ref doc_point 1)) as Hp
    by reflexivity.
  assert (no_partner is_office_text "office:annotation-end" (Ref doc_point 2))
    as Hnone.
  { intros sc SC Hsc HSC. vm_compute in Hsc. injection Hsc as <-.
    vm_compute in HSC. injection HSC as <-.
    decide_by_computation. }
  split; [exact Hp|]. split.
  - exact (proj2 (get_annotated_without_partner is_office_text no_extraction
                    _ _ true true true Hp Hnone)).
  - exact (proj2 (get_annotated_without_partner is_office_text no_extraction
                    _ _ false true true Hp Hnone)).
Defined.

(** C4 at the range annotation of [doc_range] and at the point annotation
    of [doc_point]. *)
Lemma Annotation_delete_cascade_witness :
  wf doc_range ∧
  Annotation_delete is_office_text (Ref doc_range 2) None
    = Return (sample_document [T "A "; T "paragraph"; T " with a remark."]) ∧
  wf doc_point ∧
  Annotation_delete is_office_text (Ref doc_point 2) None
    = Return (sample_document [T "A paragraph "; T "with a remark."]).
Proof.
  assert (wf doc_range) as Hrange by (by apply wf_by_computation).
  assert (wf doc_point) as Hpoint by (by apply wf_by_computation).
  split; [exact Hrange|]. split; [|split; [exact Hpoint|]].
  - destruct (Annotation_delete_cascade is_office_text (Ref doc_range 2) Hrange)
      as [Hpair _].
    exact (proj1 (Hpair (Ref doc_range 3) eq_refl)).
  - destruct (Annotation_delete_cascade is_office_text (Ref doc_point 2) Hpoint)
      as [_ Hsingle].
    exact (proj1 (Hsingle eq_refl)).
Defined.

(** C5, as stated, fails: in [doc_twins] the second annotation and the
    end marker created from it lie below the same scope, yet the
    annotation finds the first end marker and the end marker finds the
    first annotation.  Both annotations are as the constructor makes them
    outside a document. *)
Lemma pairing_symmetry_needs_unique_names :
  Annotation_init is_office_text 1 2 (PStr "review me") (Some "Alice") None
    None None sample_time
  = Return (sample_annotation 2 "__Fieldmark__lpod_1") ∧
  Annotation_init is_office_text 1 4 (PStr "review me") (Some "Alice") None
    None None sample_time
  = Return (sample_annotation 4 "__Fieldmark__lpod_1") ∧
  wf doc_twins ∧
  AnnotationEnd_init 5 (Some (Ref doc_twins 4)) None
  = Return (sample_end 5 "__Fieldmark__lpod_1") ∧
  deref (Ref doc_twins 5) = Some (sample_end 5 "__Fieldmark__lpod_1") ∧
  governing_scope is_office_text (Ref doc_twins 4) = Some (Ref doc_twins 0) ∧
  governing_scope is_office_text (Ref doc_twins 5) = Some (Ref doc_twins 0) ∧
  Annotation_end is_office_text (Ref doc_twins 4)
  = Return (Some (Ref doc_twins 3)) ∧
  AnnotationEnd_start is_office_text (Ref doc_twins 5)
  = Return (Some (Ref doc_twins 2)) ∧
  ¬ (Annotation_end is_office_text (Ref doc_twins 4)
     = Return (Some (Ref doc_twins 5)) ∧
     AnnotationEnd_start is_office_text (Ref doc_twins 5)
     = Return (Some (Ref doc_twins 4))).
Proof.
  split_and!; try reflexivity.
  - by apply wf_by_computation.
  - intros [Hend _]. vm_compute in Hend. discriminate Hend.
Qed.

(** C5 (amended) at the one pair of [doc_range]. *)
Lemma pairing_symmetry_witness :
  wf doc_range ∧
  AnnotationEnd_init 3 (Some (Ref doc_range 2)) None
  = Return (sample_end 3 "__Fieldmark__lpod_1") ∧
  Annotation_end is_office_text (Ref doc_range 2)
  = Return (Some (Ref doc_range 3)) ∧
  AnnotationEnd_start is_office_text (Ref doc_range 3)
  = Return (Some (Ref doc_range 2)).
Proof.
  assert (wf doc_range) as Hwf by (by apply wf_by_computation).
  assert (AnnotationEnd_init 3 (Some (Ref doc_range 2)) None
          = Return (sample_end 3 "__Fieldmark__lpod_1")) as Hinit
    by reflexivity.
  split; [exact Hwf|]. split; [exact Hinit|].
  apply (pairing_symmetry is_office_text doc_range 2 3 (Ref doc_range 2)
           (Ref doc_range 0) (sample_annotation 2 "__Fieldmark__lpod_1")
           (sample_end 3 "__Fieldmark__lpod_1") None);
    try reflexivity; try assumption.
  - intros SC HSC. vm_compute in HSC. injection HSC as <-.
    decide_by_computation.
  - intros SC HSC. vm_compute in HSC. injection HSC as <-.
    decide_by_computation.
Defined.

(** C6 at the root of [doc_range], which has no parent, and at the point
    annotation of [doc_point], which has no partner. *)
Lemma partner_lookup_error_iff_no_parent_witness :
  parent (Ref doc_range 0) = None ∧
  Annotation_end is_office_text (Ref doc_range 0)
  = Raise (ValueError "Can not find end tag: no parent available.") ∧
  parent (Ref doc_point 2) = Some (Ref doc_point 1) ∧
  Annotation_end is_office_text (Ref doc_point 2)
  = Return (get_annotation_end (Ref doc_point 0)
              (Some "__Fieldmark__lpod_1")) ∧
  get_annotation_end (Ref doc_point 0) (Some "__Fieldmark__lpod_1") = None.
Proof.
  assert (parent (Ref doc_range 0) = None) as Hroot by reflexivity.
  assert (parent (Ref doc_point 2) = Some (Ref doc_point 1)) as Hp
    by reflexivity.
  destruct (partner_lookup_error_iff_no_parent is_office_text
              (Ref doc_range 0)) as (Herr & _).
  destruct (partner_lookup_error_iff_no_parent is_office_text
              (Ref doc_point 2)) as (_ & _ & _ & _ & Hfound & _).
  destruct (Hfound _ Hp) as (scope & _ & -> & Hend & _).
  split; [exact Hroot|]. split; [exact (proj2 Herr Hroot)|].
  split; [exact Hp|]. split; [exact Hend|reflexivity].
Defined.

(** C7 at the class [sidenote]. *)
Lemma Note_check_validity_accepts_any_class_witness :
  "sidenote" ≠ "" ∧
  (note ← Note_init 1 (Some "sidenote") (Some "n1") (Some "1") PNone;
   Note_check_validity note) = Return ().
Proof.
  assert ("sidenote" ≠ "") as Hcls by discriminate.
  split; [exact Hcls|].
  exact (Note_check_validity_accepts_any_class 1 "sidenote" Hcls).
Defined.

(** The scenario of C7: an empty citation is a violation; with the
    citation [1] the note passes although its body is empty. *)
Example footnote_validation_scenario :
  (note ← Note_init 1 (Some "footnote") (Some "n1") (Some "") PNone;
   Note_check_validity note)
  = Raise (ValueError "notes must have a citation") ∧
  (note ← Note_init 1 (Some "footnote") (Some "n1") (Some "1") PNone;
   Note_check_validity note) = Return () ∧
  (note ← Note_init 1 (Some "footnote") (Some "n1") (Some "1") PNone;
   Note_note_body note) = Return "".
Proof. split_and!; reflexivity. Qed.

(** C8 at an annotation without creator, and at one with a creator and
    no date. *)
Lemma Annotation_check_validity_spec_witness :
  Annotation_check_validity sample_time
    (set_text_content (from_tag 2 "office:annotation") "review me")
  = Raise (ValueError "annotation must have a creator") ∧
  Annotation_check_validity sample_time
    (set_dc_creator
       (set_text_content (from_tag 2 "office:annotation") "review me") "Alice")
  = Return (set_dc_date
              (set_dc_creator
                 (set_text_content (from_tag 2 "office:annotation")
                    "review me") "Alice") sample_time).
Proof.
  split.
  - apply (Annotation_check_validity_spec sample_time
             (set_text_content (from_tag 2 "office:annotation") "review me"));
      [discriminate|reflexivity].
  - apply (proj1 (proj2 (proj2 (proj2
             (Annotation_check_validity_spec sample_time
                (set_dc_creator
                   (set_text_content (from_tag 2 "office:annotation")
                      "review me") "Alice"))))));
      [discriminate|reflexivity].
Defined.

(** C9 at a footnote as the constructor builds it. *)
Lemma Note_note_body_roundtrip_witness :
  ∃ note, Note_init 1 (Some "footnote") (Some "n1") (Some "1") PNone
          = Return note ∧
    is_Some (get_element "text:note-body" note) ∧
    (note' ← Note_set_note_body note (PStr "Author, A. (2007).");
     Note_note_body note') = Return "Author, A. (2007)." ∧
    Note_set_note_body note (PInt 2007)
    = Raise (ValueError ("Unexpected type for body: " +:+ dquote +:+
                         "<class 'int'>" +:+ dquote)).
Proof.
  eexists. split; [reflexivity|].
  assert (is_Some (get_element "text:note-body"
            (Elem 1 "text:note"
               (<["text:id":="n1"]> (<["text:note-class":="footnote"]> ∅))
               [E (Elem 3 "text:note-citation" ∅ [T "1"]);
                E (from_tag 2 "text:note-body")]))) as Hbody
    by (by eexists).
  split; [exact Hbody|]. split.
  - exact (proj1 (Note_note_body_roundtrip _) "Author, A. (2007)." Hbody).
  - exact (proj2 (Note_note_body_roundtrip _) (PInt 2007) eq_refl).
Defined.

(** C10 at the explicit name [remark]. *)
Lemma Annotation_init_name_only_autogenerated_witness :
  ∃ self, Annotation_init is_office_text 1 2 (PStr "review me")
            (Some "Alice") None (Some "remark") None sample_time
          = Return self ∧ get_attribute self "office:name" = None.
Proof.
  exact (proj1 (proj2 (Annotation_init_name_only_autogenerated
                         is_office_text 1 2 (PStr "review me")
                         (Some "Alice") None (Some "remark") None sample_time))
           eq_refl eq_refl).
Defined.

(** ** The further properties at the sample documents *)

(** X1 at the paragraph of [doc_range]. *)
Lemma get_unique_office_name_bound_witness :
  (length (scope_used_names is_office_text (Some (Ref doc_range 1))
           ++ local_used_names (Some (Ref doc_range 1))) < 5)%nat ∧
  ∃ k, 1 ≤ k ∧ k ≤ 5 ∧
       get_unique_office_name is_office_text 5 (Some (Ref doc_range 1))
       = Return (fieldmark_name k).
Proof.
  assert ((length (scope_used_names is_office_text (Some (Ref doc_range 1))
           ++ local_used_names (Some (Ref doc_range 1))) < 5)%nat) as Hfuel.
  { vm_compute. lia. }
  split; [exact Hfuel|].
  destruct (get_unique_office_name_bound is_office_text 5
              (Some (Ref doc_range 1)) Hfuel) as (k & Hk & Hle & Hrun).
  exists k. split; [exact Hk|]. split; [exact Hle|exact Hrun].
Defined.

(** X2 at the paragraphs of [doc_point] and [doc_range], whose names in
    use differ in number only. *)
Lemma get_unique_office_name_same_members_witness :
  get_unique_office_name is_office_text 1 (Some (Ref doc_point 1))
  = get_unique_office_name is_office_text 1 (Some (Ref doc_range 1)).
Proof.
  apply (get_unique_office_name_same_members is_office_text 1).
  intros k _.
  change (scope_used_names is_office_text (Some (Ref doc_point 1))
          ++ local_used_names (Some (Ref doc_point 1)))
    with (replicate 2 "__Fieldmark__lpod_1").
  change (scope_used_names is_office_text (Some (Ref doc_range 1))
          ++ local_used_names (Some (Ref doc_range 1)))
    with (replicate 4 "__Fieldmark__lpod_1").
  rewrite !elem_of_replicate. split; intros [? _]; split; done.
Defined.

(** X3 at the paragraphs of [doc_empty] and [doc_point]. *)
Lemma get_unique_office_name_monotone_witness :
  ∃ k k',
    get_unique_office_name is_office_text 3 (Some (Ref doc_empty 1))
    = Return (fieldmark_name k) ∧
    get_unique_office_name is_office_text 3 (Some (Ref doc_point 1))
    = Return (fieldmark_name k') ∧ k ≤ k'.
Proof.
  apply (get_unique_office_name_monotone is_office_text 3).
  - change (scope_used_names is_office_text (Some (Ref doc_empty 1))
            ++ local_used_names (Some (Ref doc_empty 1))) with (@nil string).
    apply list_subseteq_nil.
  - vm_compute. lia.
Defined.

(** X4 at the paragraph of [doc_point]. *)
Lemma get_unique_office_name_attached_witness :
  wf doc_point ∧
  document_body is_office_text (Ref doc_point 1) = Some (Ref doc_point 0) ∧
  get_unique_office_name is_office_text 2 (Some (Ref doc_point 1))
  = Return "__Fieldmark__lpod_2".
Proof.
  assert (wf doc_point) as Hwf by (by apply wf_by_computation).
  split; [exact Hwf|]. split; [reflexivity|].
  exact (get_unique_office_name_attached is_office_text 2 (Ref doc_point 1)
           (Ref doc_point 0) Hwf eq_refl).
Defined.

(** X5 at [sample_note]. *)
Lemma Note_citation_roundtrip_witness :
  is_Some (get_element "text:note-citation" sample_note) ∧
  ∃ note', Note_set_citation sample_note "*" = Return note' ∧
           Note_citation note' = Return "*" ∧
           Note_note_body note' = Note_note_body sample_note.
Proof.
  assert (is_Some (get_element "text:note-citation" sample_note)) as Hc
    by (by eexists).
  split; [exact Hc|].
  destruct (Note_citation_roundtrip sample_note "*" Hc)
    as (note' & Hset & Hget & Hbody & _).
  exists note'. split; [exact Hset|]. split; [exact Hget|exact Hbody].
Defined.

(** X6 at [sample_note] and [sample_paragraph]. *)
Lemma Note_set_note_body_frame_witness :
  is_Some (get_element "text:note-body" sample_note) ∧
  ∃ note', Note_set_note_body sample_note (PElement sample_paragraph)
           = Return note' ∧
           Note_note_body note' = Return "Author, A. (2007)." ∧
           Note_citation note' = Return "1".
Proof.
  assert (is_Some (get_element "text:note-body" sample_note)) as Hb
    by (by eexists).
  split; [exact Hb|].
  destruct (Note_set_note_body_frame sample_note (PElement sample_paragraph)
              Hb eq_refl) as (note' & Hset & Hget & Hcit & _).
  exists note'. split; [exact Hset|]. split; [exact Hget|exact Hcit].
Defined.

(** X7 at the footnote of the recipe. *)
Lemma Note_init_shape_witness :
  ∃ note c b,
    Note_init 1 (Some "footnote") (Some "note1") (Some "1")
      (PStr "Author, A. (2007).") = Return note ∧
    kids_of note = [E c; E b] ∧
    tag_of c = "text:note-citation" ∧ tag_of b = "text:note-body" ∧
    get_text c = "1" ∧ text_content b = "Author, A. (2007).".
Proof.
  destruct (Note_init_shape 1 (Some "footnote") (Some "note1") (Some "1")
              (PStr "Author, A. (2007).") eq_refl)
    as (note & c & b & Hinit & _ & _ & Hkids & _ & Hc & _ & Hb & _ & _
        & Hcit & Hbody).
  exists note, c, b. split_and!; assumption.
Defined.

(** X8 at an integer body. *)
Lemma Note_init_rejects_body_witness :
  Note_init 1 (Some "footnote") (Some "note1") (Some "1") (PInt 2007)
  = Raise (ValueError ("Unexpected type for body: " +:+ dquote +:+
                       "<class 'int'>" +:+ dquote)).
Proof.
  exact (Note_init_rejects_body 1 (Some "footnote") (Some "note1") (Some "1")
           (PInt 2007) eq_refl).
Defined.

(** X9 at a note built without an id. *)
Lemma Note_init_check_validity_witness :
  (note ← Note_init 1 (Some "footnote") None (Some "1") PNone;
   Note_check_validity note) = Raise (ValueError "notes must have an id").
Proof.
  exact (Note_init_check_validity 1 (Some "footnote") None (Some "1") PNone
           eq_refl).
Defined.

(** X10 at [note_without_body]. *)
Lemma Note_check_validity_missing_region_witness :
  Note_check_validity note_without_body
  = Raise (AttributeError "'NoneType' object has no attribute 'text_content'").
Proof.
  refine (proj2 (Note_check_validity_missing_region note_without_body
                   eq_refl eq_refl) 0%nat
            (set_text (from_tag 2 "text:note-citation") "1") eq_refl _ eq_refl).
  discriminate.
Defined.

(** X11 at a fresh annotation. *)
Lemma Annotation_note_body_roundtrip_witness :
  (∃ self', Annotation_set_note_body (from_tag 2 "office:annotation")
              (PElement sample_paragraph) = Return self' ∧
            Annotation_note_body self' = "Author, A. (2007).") ∧
  Annotation_set_note_body (from_tag 2 "office:annotation") PNone
  = Raise (TypeError "expected unicode or Element").
Proof.
  destruct (Annotation_note_body_roundtrip (from_tag 2 "office:annotation")
              (PElement sample_paragraph)) as [Hok _].
  destruct (Hok eq_refl) as (self' & Hset & Hget & _).
  split; [exists self'; split; [exact Hset|exact Hget]|].
  exact (proj2 (Annotation_note_body_roundtrip
                  (from_tag 2 "office:annotation") PNone) eq_refl).
Defined.

(** X12 at an annotation with an empty creator and no date. *)
Lemma Annotation_init_shape_witness :
  ∃ self,
    Annotation_init is_office_text 0 2 (PStr "review me") (Some "") None
      (Some "remark") None sample_time = Return self ∧
    dc_creator self = None ∧ dc_date self = Some sample_time.
Proof.
  destruct (Annotation_init_shape is_office_text 0 2 (PStr "review me")
              (Some "") None (Some "remark") None sample_time eq_refl
              (or_introl eq_refl))
    as (self & Hinit & _ & _ & _ & Hcreator & Hdate).
  exists self. split; [exact Hinit|]. split; [exact Hcreator|exact Hdate].
Defined.

(** X13 at an annotation named by the allocator. *)
Lemma Annotation_init_check_validity_witness :
  (self ← Annotation_init is_office_text 3 2 (PStr "review me")
            (Some "Alice") None None (Some (Ref doc_point 1)) sample_time;
   Annotation_check_validity "2019-01-01T00:00:00" self)
  = Annotation_init is_office_text 3 2 (PStr "review me") (Some "Alice")
      None None (Some (Ref doc_point 1)) sample_time.
Proof.
  refine (Annotation_init_check_validity is_office_text 3 2 (PStr "review me")
            (Some "Alice") None None (Some (Ref doc_point 1)) sample_time
            "2019-01-01T00:00:00" eq_refl (or_intror _)).
  vm_compute. lia.
Defined.

(** X14 at an annotation constructed with the name [remark]. *)
Lemma AnnotationEnd_init_from_annotation_witness :
  ∃ a, Annotation_init is_office_text 0 2 (PStr "review me") (Some "Alice")
         None (Some "remark") None sample_time = Return a ∧
       AnnotationEnd_init 3 (Some (Ref a (uid_of a))) (Some "remark")
       = Raise (ValueError "Annotation-end must have a name").
Proof.
  exact (proj2 (proj2 (AnnotationEnd_init_from_annotation is_office_text 0 2 3
                         (PStr "review me") (Some "Alice") None
                         (Some "remark") (Some "remark") None sample_time))
           eq_refl eq_refl).
Defined.



(** X17 at the range annotation of [doc_range]. *)
Lemma Annotation_delete_no_dangling_end_witness :
  wf doc_range ∧
  ∃ t', Annotation_delete is_office_text (Ref doc_range 2) None = Return t' ∧
        ∀ x, x ∈ elements t' →
             ¬ named "office:annotation-end" (Some "__Fieldmark__lpod_1") x.
Proof.
  assert (wf doc_range) as Hwf by (by apply wf_by_computation).
  split; [exact Hwf|].
  apply (Annotation_delete_no_dangling_end is_office_text
           (Ref doc_range 2) (Ref doc_range 3) Hwf eq_refl).
  intros y Hy. apply (Forall_forall (λ y, named _ _ y → uid_of y = 3%nat)
                        (elements doc_range)); [|exact Hy].
  decide_by_computation.
Defined.

(** X18 at the paragraph of [doc_point]. *)
Lemma get_unique_office_name_fresh_in_tree_witness :
  ∃ name, get_unique_office_name is_office_text 3 (Some (Ref doc_point 1))
          = Return name ∧
    ∀ x, x ∈ elements doc_point → get_attribute x "office:name" ≠ Some name.
Proof.
  assert ((length (scope_used_names is_office_text (Some (Ref doc_point 1))
           ++ local_used_names (Some (Ref doc_point 1))) < 3)%nat) as Hfuel.
  { vm_compute. lia. }
  destruct (get_unique_office_name_fresh_in_tree is_office_text 3
              (Ref doc_point 1) Hfuel) as (name & Hrun & _ & Hbody).
  exists name. split; [exact Hrun|].
  intros x. exact (Hbody (Ref doc_point 0) doc_point x eq_refl eq_refl).
Defined.

(** X19 at the two annotations of [doc_twins]. *)
Lemma partner_lookup_by_scope_and_name_witness :
  Annotation_end is_office_text (Ref doc_twins 2)
  = Annotation_end is_office_text (Ref doc_twins 4).
Proof.
  exact (proj1 (partner_lookup_by_scope_and_name is_office_text
                  (Ref doc_twins 2) (Ref doc_twins 4) (Ref doc_twins 0)
                  eq_refl eq_refl eq_refl)).
Defined.
